(** * isolated-vm: [src/isolate_handle.cc]

    A shallow embedding of the isolate handle of isolated-vm: the
    memory-limited [ArrayBuffer] allocator, isolate creation, the context
    deleter and disposer, script compilation with code caches, inspector
    session creation and snapshot creation, followed by the properties the
    specification states about them.

    Conventions.  [size_t] is the 64-bit unsigned type of an LP64 build; every
    [size_t] operation of the source is written with its reduction modulo
    [2^64].  Calls into v8 and libc are inputs of the operation that makes
    them (what the call returned), or variables of a section when a whole
    collaborator is abstract.  A C++ [throw] is a constructor of the result
    type; a [shared_ptr] or raw pointer that may be null is an [option].  A
    string is its UTF-8 text; a [std::string] built from a [char*] holds the
    characters before the first NUL, which [c_str] computes. *)

From Stdlib Require Import ZArith Lia Bool List.
From Stdlib Require Import Floats.SpecFloat.
From stdpp Require Import base option list strings gmap.

Local Open Scope Z_scope.

(** ** Machine integers *)

Definition SIZE_BITS : Z := 64.
Definition SIZE_MODULUS : Z := 2 ^ SIZE_BITS.

(** The value of a [size_t] expression whose mathematical value is [x]. *)
Definition size_t (x : Z) : Z := x mod SIZE_MODULUS.

(** A value of type [size_t]. *)
Definition is_size_t (x : Z) : Prop := 0 <= x < SIZE_MODULUS.

(** [(int)x] for a 32-bit [int], as two's complement truncation. *)
Definition to_int (x : Z) : Z := (x + 2 ^ 31) mod 2 ^ 32 - 2 ^ 31.

(** ** LimitedAllocator (lines 67-119) *)

Module LimitedAllocator.

Record t : Type := Build {
  limit : Z;
  v8_heap : Z;
  my_heap : Z;
  next_check : Z
}.

Inductive pointer : Type :=
| nullptr
| address (a : positive).

Definition is_null (p : pointer) : bool :=
  match p with nullptr => true | address _ => false end.

(** [explicit LimitedAllocator(size_t limit)] *)
Definition New (limit : Z) : t :=
  {| limit := limit; v8_heap := 1024 * 1024 * 4; my_heap := 0; next_check := 1024 * 1024 |}.

(** [v8_heap + my_heap + length], evaluated left to right in [size_t]. *)
Definition projected (a : t) (length : Z) : Z :=
  size_t (size_t (v8_heap a + my_heap a) + length).

Definition set_v8_heap (v : Z) (a : t) : t :=
  {| limit := limit a; v8_heap := v; my_heap := my_heap a; next_check := next_check a |}.
Definition set_my_heap (v : Z) (a : t) : t :=
  {| limit := limit a; v8_heap := v8_heap a; my_heap := v; next_check := next_check a |}.
Definition set_next_check (v : Z) (a : t) : t :=
  {| limit := limit a; v8_heap := v8_heap a; my_heap := my_heap a; next_check := v |}.

(** [bool Check(const size_t length)].  [total_heap_size] is what
    [GetHeapStatistics] reports if this call queries it. *)
Definition Check (total_heap_size : Z) (length : Z) (a : t) : bool * t :=
  let refreshed : t + t :=
    if projected a length >? next_check a then
      let a1 := set_v8_heap total_heap_size a in
      if projected a1 length >? limit a1 then inl a1
      else inr (set_next_check (size_t (projected a1 length + 1024 * 1024)) a1)
    else inr a in
  match refreshed with
  | inl a1 => (false, a1)
  | inr a1 =>
      if projected a1 length >? limit a1 then (false, a1)
      else (true, set_my_heap (size_t (my_heap a1 + length)) a1)
  end.

(** [void* Allocate(size_t length)]; [calloc_result] is what
    [calloc(length, 1)] returns if it is called. *)
Definition Allocate (total_heap_size : Z) (calloc_result : pointer) (length : Z) (a : t)
  : pointer * t :=
  let '(ok, a1) := Check total_heap_size length a in
  if ok then (calloc_result, a1) else (nullptr, a1).

(** [void* AllocateUninitialized(size_t length)] *)
Definition AllocateUninitialized (total_heap_size : Z) (malloc_result : pointer) (length : Z) (a : t)
  : pointer * t :=
  let '(ok, a1) := Check total_heap_size length a in
  if ok then (malloc_result, a1) else (nullptr, a1).

(** [void Free(void* data, size_t length)] *)
Definition Free (length : Z) (a : t) : t :=
  set_next_check (size_t (next_check a - length))
    (set_my_heap (size_t (my_heap a - length)) a).

(** [size_t GetAllocatedSize() const] *)
Definition GetAllocatedSize (a : t) : Z := my_heap a.

(** The bytes of a list of blocks. *)
Definition total_length (blocks : list Z) : Z := foldr Z.add 0 blocks.

(** The allocator of an isolate in use.  [reachable L B a live] holds when
    [a] is a state the allocator built with limit [L] is in after some
    sequence of [Allocate], [AllocateUninitialized] and [Free] calls, and
    [live] lists the lengths of the blocks handed out and not yet freed.
    The engine reports heap sizes up to [B], requests are small enough for
    [B + L + length] to be a [size_t], and [Free] is given a block that is
    live, with the length it was allocated with. *)
Inductive reachable (L B : Z) : t -> list Z -> Prop :=
| reachable_New :
    1024 * 1024 * 4 <= B ->
    reachable L B (New L) []
| reachable_Allocate a live total_heap_size calloc_result length :
    reachable L B a live ->
    0 <= total_heap_size <= B ->
    0 <= length ->
    B + L + length < SIZE_MODULUS ->
    reachable L B (Allocate total_heap_size calloc_result length a).2
      (if is_null (Allocate total_heap_size calloc_result length a).1
       then live else length :: live)
| reachable_AllocateUninitialized a live total_heap_size malloc_result length :
    reachable L B a live ->
    0 <= total_heap_size <= B ->
    0 <= length ->
    B + L + length < SIZE_MODULUS ->
    reachable L B (AllocateUninitialized total_heap_size malloc_result length a).2
      (if is_null (AllocateUninitialized total_heap_size malloc_result length a).1
       then live else length :: live)
| reachable_Free a live1 length live2 :
    reachable L B a (live1 ++ length :: live2) ->
    reachable L B (Free length a) (live1 ++ live2).

(** What holds of every state of an allocator in use: the limit is the
    configured one, the estimate of the engine heap is within the bound,
    and the tracked bytes cover the live blocks and stay within the
    limit. *)
Definition invariant (L B : Z) (a : t) (live : list Z) : Prop :=
  limit a = L /\ 0 <= v8_heap a <= B /\ 0 <= my_heap a <= L /\
  Forall (fun n => 0 <= n) live /\ total_length live <= my_heap a.

End LimitedAllocator.

(** ** v8 values, as far as this file inspects them *)

(** The [ExternalCopy] a handle wraps: an array buffer with its bytes, or an
    instance of another subclass. *)
Inductive ExternalCopy : Type :=
| ExternalCopyArrayBuffer (data : list Byte.byte)
| ExternalCopyOther (tag : string).

Inductive ObjectKind : Type :=
| OrdinaryObject
| ExternalCopyHandle (value : ExternalCopy).

(** A [Local<Value>].  A number is an IEEE 754 binary64.  An object is an
    instance of the [ExternalCopyHandle] template, with the copy it wraps,
    or any other object. *)
Inductive Value : Type :=
| Undefined
| Null
| Boolean (b : bool)
| Number (d : spec_float)
| String (s : string)
| Object (k : ObjectKind).

Definition IsUndefined (v : Value) : bool := match v with Undefined => true | _ => false end.
Definition IsNumber (v : Value) : bool := match v with Number _ => true | _ => false end.
Definition IsTrue (v : Value) : bool := match v with Boolean true => true | _ => false end.

(** [std::dynamic_pointer_cast<ExternalCopyArrayBuffer>(copy)]: null unless
    the copy is an array buffer. *)
Definition dynamic_pointer_cast_ArrayBuffer (c : ExternalCopy) : option (list Byte.byte) :=
  match c with ExternalCopyArrayBuffer data => Some data | ExternalCopyOther _ => None end.

(** The C string a [char*] names: the characters before the first NUL.
    This is what a [std::string] holds that is built or assigned from
    [*String::Utf8Value(s)] (lines 37, 480 and 484), and what
    [v8_string(s.c_str())] reads of a [std::string] (lines 58, 505 and
    526). *)
Fixpoint c_str (s : string) : string :=
  match s with
  | EmptyString => EmptyString
  | String.String c rest =>
      if Ascii.eqb c Ascii.zero then EmptyString else String.String c (c_str rest)
  end.

(** A property of an object, as [Get] finds it: a value (a data property,
    or an accessor that returns one), or an accessor whose call throws
    [exception]. *)
Inductive property : Type :=
| data_property (v : Value)
| accessor_throws (exception : Value).

(** A [MaybeLocal<T>]: a handle, or empty; [pending] is the exception the
    call that failed left pending in the isolate, if it left one. *)
Inductive MaybeLocal (A : Type) : Type :=
| Handle (a : A)
| Empty (pending : option Value).
Arguments Handle {A} a.
Arguments Empty {A} pending.

(** [object->Get(context, key)] on an object with the given properties.
    [Get] of an absent property is [undefined]. *)
Definition Get (options : gmap string property) (key : string) : MaybeLocal Value :=
  match options !! key with
  | None => Handle Undefined
  | Some (data_property v) => Handle v
  | Some (accessor_throws exception) => Empty (Some exception)
  end.

(** The integer a binary64 truncates to (towards zero), for finite values. *)
Definition truncate (d : spec_float) : option Z :=
  match d with
  | S754_zero _ => Some 0
  | S754_finite s m e =>
      let magnitude := if 0 <=? e then Z.pos m * 2 ^ e else Z.pos m / 2 ^ (- e) in
      Some (if s then - magnitude else magnitude)
  | S754_infinity _ | S754_nan => None
  end.

(** [(size_t)d]: defined when the truncated value is representable in
    [size_t]; any other conversion has undefined behaviour in C++. *)
Definition double_to_size_t (d : spec_float) : option Z :=
  match truncate d with
  | Some z => if (0 <=? z) && (z <? SIZE_MODULUS) then Some z else None
  | None => None
  end.

(** [value->IsInt32()]: an integral number in the [int32] range, not [-0]. *)
Definition Int32Value (d : spec_float) : option Z :=
  match d with
  | S754_zero false => Some 0
  | S754_finite s m e =>
      let exact : option Z :=
        if 0 <=? e then Some (Z.pos m * 2 ^ e)
        else if Z.pos m mod 2 ^ (- e) =? 0 then Some (Z.pos m / 2 ^ (- e)) else None in
      match exact with
      | Some magnitude =>
          let z := if s then - magnitude else magnitude in
          if (- 2 ^ 31 <=? z) && (z <? 2 ^ 31) then Some z else None
      | None => None
      end
  | _ => None
  end.

(** ** Errors and results *)

(** The C++ exceptions of this file.  [js_runtime_error] is thrown by
    [Unmaybe] when a v8 call returned an empty handle; [pending] is the
    exception that call left pending, if it left one. *)
Inductive js_error : Type :=
| js_generic_error (message : string)
| js_type_error (message : string)
| js_runtime_error (pending : option Value).

(** What a call does: return, throw, fail an [assert], or run into undefined
    behaviour. *)
Inductive result (A : Type) : Type :=
| Return (a : A)
| Throw (e : js_error)
| AssertionFailure
| UndefinedBehaviour.
Arguments Return {A} a.
Arguments Throw {A} e.
Arguments AssertionFailure {A}.
Arguments UndefinedBehaviour {A}.

Definition bind {A B : Type} (r : result A) (k : A -> result B) : result B :=
  match r with
  | Return a => k a
  | Throw e => Throw e
  | AssertionFailure => AssertionFailure
  | UndefinedBehaviour => UndefinedBehaviour
  end.

Declare Scope result_scope.
Delimit Scope result_scope with result.
Notation "x <- r ;; k" := (bind r (fun x => k))
  (at level 100, r at next level, right associativity) : result_scope.

(** [Unmaybe(handle)]: the handle, or [js_runtime_error] when it is
    empty. *)
Definition Unmaybe {A : Type} (handle : MaybeLocal A) : result A :=
  match handle with
  | Handle a => Return a
  | Empty pending => Throw (js_runtime_error pending)
  end.

(** ** ScriptOriginHolder (lines 21-60) *)

Module ScriptOriginHolder.

Record t : Type := Build {
  filename : string;
  columnOffset : Z;
  lineOffset : Z
}.

Definition parse_offset (name : string) (v : Value) (current : Z) : result Z :=
  if IsUndefined v then Return current
  else match v with
       | Number d =>
           match Int32Value d with
           | Some z => Return z
           | None => Throw (js_type_error ("`" +:+ name +:+ "` must be an integer"))
           end
       | _ => Throw (js_type_error ("`" +:+ name +:+ "` must be an integer"))
       end.

(** The member initialisers of the constructor. *)
Definition initial : t := Build "<isolated-vm>" 0 0.

(** Lines 33-38: the file name is assigned from a [char*]. *)
Definition parse_filename (v : Value) (current : string) : result string :=
  if IsUndefined v then Return current
  else match v with
       | String s => Return (c_str s)
       | _ => Throw (js_type_error "`filename` must be a string")
       end.

(** [explicit ScriptOriginHolder(MaybeLocal<Object> maybe_options)] *)
Definition New (maybe_options : option (gmap string property)) : result t :=
  match maybe_options with
  | None => Return initial
  | Some options =>
      (v <- Unmaybe (Get options "filename") ;;
       filename <- parse_filename v (filename initial) ;;
       v <- Unmaybe (Get options "columnOffset") ;;
       columnOffset <- parse_offset "columnOffset" v (columnOffset initial) ;;
       v <- Unmaybe (Get options "lineOffset") ;;
       lineOffset <- parse_offset "lineOffset" v (lineOffset initial) ;;
       Return (Build filename columnOffset lineOffset))%result
  end.

(** [ScriptOrigin ToScriptOrigin()]: the three constructor arguments of
    [v8::ScriptOrigin], in the order the source passes them. *)
Definition ScriptOrigin : Type := string * Z * Z.

Definition ToScriptOrigin (h : t) : ScriptOrigin :=
  (c_str (filename h), columnOffset h, lineOffset h).

End ScriptOriginHolder.

(** ** Isolates and their holders *)

(** An [IsolateEnvironment], as far as this file looks into it:
    [GetInspectorAgent()] is null unless the inspector was enabled. *)
Record IsolateEnvironment : Type := {
  env_id : positive;
  GetInspectorAgent : option positive
}.

(** An [IsolateHolder]: [GetIsolate()] is null once the isolate is disposed.
    Two [shared_ptr<IsolateHolder>] are equal when they point to the same
    holder. *)
Record IsolateHolder : Type := {
  holder_id : positive;
  GetIsolate : option IsolateEnvironment
}.

(** ** CreateContextRunner (lines 218-295) *)

Module CreateContextRunner.

(** A [v8::Context] of the isolate. *)
Definition Context : Type := positive.

(** A [Persistent<Context>]: the context it keeps alive, empty after
    [Reset]. *)
Definition Persistent : Type := option Context.

(** Calls into v8 and the inspector agent, in program order. *)
Inductive event : Type :=
| LocalNew (c : option Context)
| PersistentReset (released : option Context)
| ContextCreated (c : Context) (name : string)
| ContextDestroyed (c : option Context)
| ContextDisposedNotification.

(** [struct ContextDisposer : public Runnable] (lines 245-260) *)
Record ContextDisposer : Type := {
  context : Persistent;
  has_inspector : bool
}.

(** [this->context->Reset()] *)
Definition Reset (d : ContextDisposer) : list event * ContextDisposer :=
  ([PersistentReset (context d)], {| context := None; has_inspector := has_inspector d |}).

(** [void Run() final] (lines 249-259) *)
Definition Run (d : ContextDisposer) : list event * ContextDisposer :=
  let '(inspector_events, d1) :=
    if has_inspector d then
      let local := context d in
      let '(reset_events, d') := Reset d in
      ([LocalNew local] ++ reset_events ++ [ContextDestroyed local], d')
    else ([], d) in
  let '(reset_events, d2) := Reset d1 in
  (inspector_events ++ reset_events ++ [ContextDisposedNotification], d2).

(** [struct ContextDeleter] (lines 236-267): a weak reference to the holder
    that was current when the context was made. *)
Record ContextDeleter : Type := {
  isolate : positive;
  deleter_has_inspector : bool
}.

(** What the deleter does with the pointer it is handed.  [ScheduleTask]
    carries the holder it is called on and its three arguments; the second
    and third are named after the [schedule] contract of the
    specification.  [Delete] is the [unique_ptr] destructor freeing a
    [Persistent] object the deleter still owns. *)
Inductive action : Type :=
| ScheduleTask (holder : positive) (task : ContextDisposer)
    (run_inline : bool) (requires_heap_scope : bool)
| Delete (p : Persistent).

(** [isolate.lock()]: the holder, if some [shared_ptr] still owns it. *)
Definition lock (alive : positive -> bool) (weak : positive) : option positive :=
  if alive weak then Some weak else None.

(** [void operator() (Persistent<Context>* ptr)] (lines 242-266) *)
Definition ContextDeleter_call (alive : positive -> bool) (d : ContextDeleter) (ptr : Persistent)
  : list action :=
  let context := ptr in
  match lock alive (isolate d) with
  | Some isolate_ref =>
      [ScheduleTask isolate_ref
         {| context := context; has_inspector := deleter_has_inspector d |} true false]
  | None => [Delete context]
  end.

Record t : Type := {
  enable_inspector : bool;
  runner_isolate : IsolateHolder
}.

(** The constructor (lines 224-232). *)
Definition New (maybe_options : option (gmap string property)) (isolate : IsolateHolder)
  : result t :=
  match maybe_options with
  | Some options =>
      (enable_inspector <- Unmaybe (Get options "inspector") ;;
       Return {| enable_inspector := IsTrue enable_inspector; runner_isolate := isolate |})%result
  | None => Return {| enable_inspector := false; runner_isolate := isolate |}
  end.

(** What [Phase2] leaves in the runner: the persistent context with its
    deleter, and the persistent global. *)
Record phase2 : Type := {
  context_ptr : Persistent;
  context_deleter : ContextDeleter;
  global : Context
}.

(** [void Phase2() final] (lines 234-285), in the isolate [env] whose
    holder is [current_holder]; [context_handle] is what [Context::New]
    returns. *)
Definition Phase2 (env : IsolateEnvironment) (current_holder : positive)
    (context_handle : Context) (r : t) : result (list event * phase2) :=
  if enable_inspector r && negb (bool_decide (is_Some (GetInspectorAgent env))) then
    Throw (js_generic_error "Inspector is not enabled for this isolate")
  else
    Return
      ((if enable_inspector r then [ContextCreated context_handle "<isolated-vm>"] else []),
       {| context_ptr := Some context_handle;
          context_deleter := {| isolate := current_holder;
                                deleter_has_inspector := enable_inspector r |};
          global := context_handle |}).

End CreateContextRunner.

(** ** CompileScriptRunner (lines 300-393) *)

Module CompileScriptRunner.

Inductive CompileOptions : Type :=
| kNoCompileOptions
| kConsumeCodeCache
| kProduceCodeCache.

(** [ScriptCompiler::CachedData]: the bytes ([data], [length]) and the
    [rejected] flag the compiler sets when it consumed them. *)
Record CachedData : Type := {
  data : list Byte.byte;
  rejected : bool
}.

(** [ScriptCompiler::Source source(code_inner, script_origin, cached_data)] *)
Record Source : Type := {
  source_string : string;
  origin : ScriptOriginHolder.ScriptOrigin;
  cached_data : option (list Byte.byte)
}.

Definition UnboundScript : Type := positive.

(** What [ScriptCompiler::CompileUnboundScript] did: it failed and left an
    exception pending, or it compiled; then [cache_rejected] is the
    [rejected] flag it left on a consumed cache and [produced] the cache it
    attached to the source when asked to produce one. *)
Inductive compiled : Type :=
| CompileFailed (exception : Value)
| Compiled (script : UnboundScript) (cache_rejected : bool) (produced : option (list Byte.byte)).

Record t : Type := Build {
  isolate : IsolateHolder;
  code_string : string;
  script_origin_holder : ScriptOriginHolder.t;
  cached_data_blob : option (list Byte.byte);
  produce_cached_data : bool;
  script : option UnboundScript;
  supplied_cached_data : bool;
  cached_data_rejected : bool
}.

(** Lines 320-334. *)
Definition parse_cached_data (v : Value) : result (option (list Byte.byte)) :=
  if IsUndefined v then Return None
  else match v with
       | Object (ExternalCopyHandle copy) =>
           match dynamic_pointer_cast_ArrayBuffer copy with
           | Some blob => Return (Some blob)
           | None => Throw (js_type_error "`cachedData` must be an ExternalCopy to ArrayBuffer")
           end
       | _ => Throw (js_type_error "`cachedData` must be an ExternalCopy to ArrayBuffer")
       end.

(** The constructor (lines 312-345). *)
Definition New (isolate : IsolateHolder) (code_handle : string)
    (maybe_options : option (gmap string property)) : result t :=
  (script_origin_holder <- ScriptOriginHolder.New maybe_options ;;
   match maybe_options with
   | Some options =>
       cached_data_handle <- Unmaybe (Get options "cachedData") ;;
       cached_data_blob <- parse_cached_data cached_data_handle ;;
       (* line 338: no [Unmaybe]; an empty handle leaves the flag as it is *)
       let produce_cached_data :=
         match Get options "produceCachedData" with
         | Handle produce_cached_data_val => IsTrue produce_cached_data_val
         | Empty _ => false
         end in
       Return (Build isolate code_handle script_origin_holder cached_data_blob
                 produce_cached_data None false false)
   | None =>
       Return (Build isolate code_handle script_origin_holder None false None false false)
   end)%result.

(** Lines 353-360: the compile options chosen. *)
Definition compile_options (r : t) : CompileOptions :=
  match cached_data_blob r with
  | Some _ => kConsumeCodeCache
  | None => if produce_cached_data r then kProduceCodeCache else kNoCompileOptions
  end.

(** Line 361: the source handed to the compiler, [code_inner] being the
    copy of the code in the isolate's heap. *)
Definition source (code_inner : string) (r : t) : Source :=
  {| source_string := code_inner;
     origin := ScriptOriginHolder.ToScriptOrigin (script_origin_holder r);
     cached_data := cached_data_blob r |}.

Definition set_script (v : option UnboundScript) (r : t) : t :=
  Build (isolate r) (code_string r) (script_origin_holder r) (cached_data_blob r)
    (produce_cached_data r) v (supplied_cached_data r) (cached_data_rejected r).
Definition set_cached_data_blob (v : option (list Byte.byte)) (r : t) : t :=
  Build (isolate r) (code_string r) (script_origin_holder r) v
    (produce_cached_data r) (script r) (supplied_cached_data r) (cached_data_rejected r).
Definition set_supplied_cached_data (v : bool) (r : t) : t :=
  Build (isolate r) (code_string r) (script_origin_holder r) (cached_data_blob r)
    (produce_cached_data r) (script r) v (cached_data_rejected r).
Definition set_cached_data_rejected (v : bool) (r : t) : t :=
  Build (isolate r) (code_string r) (script_origin_holder r) (cached_data_blob r)
    (produce_cached_data r) (script r) (supplied_cached_data r) v.

(** [source.GetCachedData()] after the compile: the cache the source was
    built with, carrying the compiler's verdict, or else the cache the
    compiler produced. *)
Definition GetCachedData (src : Source) (cache_rejected : bool) (produced : option (list Byte.byte))
  : option CachedData :=
  match cached_data src with
  | Some bytes => Some {| data := bytes; rejected := cache_rejected |}
  | None => (fun bytes => {| data := bytes; rejected := false |}) <$> produced
  end.

Section Phases.

(** [code_string->CopyIntoCheckHeap()]: the code copied into the heap of
    the isolate, unless the copy throws. *)
Variable CopyIntoCheckHeap : string -> result string.
(** [Unmaybe] of [ScriptCompiler::CompileUnboundScript] on [source] with
    [compile_options], under [RunWithAnnotatedErrors]. *)
Variable CompileUnboundScript : Source -> CompileOptions -> compiled.

(** [void Phase2() final] (lines 347-376) *)
Definition Phase2 (r : t) : result t :=
  (code_inner <- CopyIntoCheckHeap (code_string r) ;;
   let src := source code_inner r in
   match CompileUnboundScript src (compile_options r) with
   | CompileFailed exception => Throw (js_runtime_error (Some exception))
   | Compiled unbound cache_rejected produced =>
       let r := set_script (Some unbound) r in
       match cached_data_blob r with
       | Some _ =>
           match GetCachedData src cache_rejected produced with
           | Some cd =>
               Return (set_cached_data_blob None
                         (set_cached_data_rejected (rejected cd)
                            (set_supplied_cached_data true r)))
           | None => UndefinedBehaviour
           end
       | None =>
           if produce_cached_data r then
             match GetCachedData src cache_rejected produced with
             | Some cd => Return (set_cached_data_blob (Some (data cd)) r)
             | None => AssertionFailure
             end
           else Return r
       end
   end)%result.

End Phases.

(** The [Script] object [Phase3] returns: the [ScriptHandle] it wraps and
    the properties set on it. *)
Record ScriptObject : Type := {
  handle_isolate : IsolateHolder;
  handle_script : option UnboundScript;
  properties : gmap string Value
}.

(** [Local<Value> Phase3() final] (lines 378-388) *)
Definition Phase3 (r : t) : ScriptObject :=
  let value := {| handle_isolate := isolate r; handle_script := script r; properties := ∅ |} in
  if supplied_cached_data r then
    {| handle_isolate := handle_isolate value; handle_script := handle_script value;
       properties := <["cachedDataRejected" := Boolean (cached_data_rejected r)]> (properties value) |}
  else
    match cached_data_blob r with
    | Some blob =>
        {| handle_isolate := handle_isolate value; handle_script := handle_script value;
           properties := <["cachedData" := Object (ExternalCopyHandle (ExternalCopyArrayBuffer blob))]>
                           (properties value) |}
    | None => value
    end.

End CompileScriptRunner.

(** ** IsolateHandle (lines 121-213, 395-556) *)

Module IsolateHandle.

(** *** New (lines 155-209) *)

Record ResourceConstraints : Type := {
  max_semi_space_size : Z;
  max_old_space_size : Z
}.

(** What [New] has built when it returns: the arguments of
    [IsolateEnvironment::New] and whether [EnableInspectorAgent] was
    called on the new environment. *)
Record created : Type := {
  rc : ResourceConstraints;
  allocator : LimitedAllocator.t;
  snapshot_blob : option (list Byte.byte);
  memory_limit : Z;
  inspector : bool
}.

(** Lines 166-176. *)
Definition parse_memory_limit (v : Value) : result Z :=
  if IsUndefined v then Return 128
  else match v with
       | Number d =>
           match double_to_size_t d with
           | Some memory_limit =>
               if memory_limit <? 8 then Throw (js_generic_error "`memoryLimit` must be at least 8")
               else Return memory_limit
           | None => UndefinedBehaviour
           end
       | _ => Throw (js_generic_error "`memoryLimit` must be a number")
       end.

(** Lines 178-192. *)
Definition parse_snapshot (v : Value) : result (option (list Byte.byte)) :=
  if IsUndefined v then Return None
  else match v with
       | Object (ExternalCopyHandle copy) =>
           match dynamic_pointer_cast_ArrayBuffer copy with
           | Some blob => Return (Some blob)
           | None => Throw (js_type_error "`snapshot` must be an ExternalCopy to ArrayBuffer")
           end
       | _ => Throw (js_type_error "`snapshot` must be an ExternalCopy to ArrayBuffer")
       end.

(** [(int)std::pow(2, std::min(4, (int)(memory_limit / 128)))] on a 64-bit
    build: a negative exponent gives a power below one, which truncates
    to zero. *)
Definition semi_space_size (memory_limit : Z) : Z :=
  let exponent := Z.min 4 (to_int (memory_limit / 128)) in
  if exponent <? 0 then 0 else 2 ^ exponent.

(** Lines 198-208. *)
Definition build (memory_limit : Z) (snapshot_blob : option (list Byte.byte)) (inspector : bool)
  : created :=
  {| rc := {| max_semi_space_size := semi_space_size memory_limit;
              max_old_space_size := to_int (size_t (memory_limit * 2)) |};
     allocator := LimitedAllocator.New (size_t (size_t (memory_limit * 1024) * 1024));
     snapshot_blob := snapshot_blob;
     memory_limit := memory_limit;
     inspector := inspector |}.

(** [unique_ptr<ClassHandle> IsolateHandle::New(MaybeLocal<Object> maybe_options)] *)
Definition New (maybe_options : option (gmap string property)) : result created :=
  match maybe_options with
  | None => Return (build 128 None false)
  | Some options =>
      (maybe_memory_limit <- Unmaybe (Get options "memoryLimit") ;;
       memory_limit <- parse_memory_limit maybe_memory_limit ;;
       snapshot_handle <- Unmaybe (Get options "snapshot") ;;
       snapshot_blob <- parse_snapshot snapshot_handle ;;
       inspector <- Unmaybe (Get options "inspector") ;;
       Return (build memory_limit snapshot_blob (IsTrue inspector)))%result
  end.

(** *** CreateInspectorSession (lines 398-410) *)

(** What a call can start outside its own return value: a task scheduled
    on an isolate, or a [SessionHandle] instantiated on an environment. *)
Inductive effect : Type :=
| TaskScheduled (holder : positive)
| SessionHandleCreated (env : IsolateEnvironment).

(** [Local<Value> IsolateHandle::CreateInspectorSession()], called on the
    handle of [isolate] while [current_holder] is
    [IsolateEnvironment::GetCurrentHolder()]. *)
Definition CreateInspectorSession (current_holder : positive) (isolate : IsolateHolder)
  : result IsolateEnvironment * list effect :=
  if bool_decide (current_holder = holder_id isolate) then
    (Throw (js_generic_error "An isolate is not debuggable from within itself"), [])
  else
    match GetIsolate isolate with
    | None => (Throw (js_generic_error "Isolate is diposed"), [])
    | Some env =>
        match GetInspectorAgent env with
        | None => (Throw (js_generic_error "Inspector is not enabled for this isolate"), [])
        | Some _ => (Return env, [SessionHandleCreated env])
        end
    end.

(** *** CreateSnapshot (lines 459-556) *)

(** An element of the [scripts] array: an object with its properties, or a
    value that is not an object. *)
Inductive script_handle : Type :=
| ScriptObject (properties : gmap string property)
| NotAnObject (v : Value).

(** A name [GetOwnPropertyNames] lists: the array index it stands for, or a
    name that is no array index. *)
Inductive property_name : Type :=
| array_index (index : Z)
| not_an_index (name : string).

(** [name->ToArrayIndex(context)]: an empty handle, with nothing pending,
    for a name that is no array index. *)
Definition ToArrayIndex (name : property_name) : MaybeLocal Z :=
  match name with
  | array_index index => Handle index
  | not_an_index _ => Empty None
  end.

(** The [scripts] array: its own enumerable properties in the order of
    [GetOwnPropertyNames], each with its name and with what [Get] of it
    returns (an element, or an empty handle when an accessor throws).  An
    array without holes and without other properties has the indices 0, 1,
    2 and so on.  [GetOwnPropertyNames] of an array and [Get] on the array
    of names run no code of the caller and do not fail. *)
Definition script_array : Type := list (property_name * MaybeLocal script_handle).

(** The loop at lines 466-481, from the [ii]-th own property on. *)
Fixpoint marshal_scripts_from (ii : Z) (script_handles : script_array)
  : result (list (string * ScriptOriginHolder.t)) :=
  match script_handles with
  | [] => Return []
  | (name, element) :: rest =>
      (key <- Unmaybe (ToArrayIndex name) ;;
       if negb (key =? ii) then Throw (js_type_error "Invalid `scripts` array")
       else
         script_handle <- Unmaybe element ;;
         match script_handle with
         | NotAnObject _ => Throw (js_type_error "`scripts` should be array of objects")
         | ScriptObject properties =>
             script <- Unmaybe (Get properties "code") ;;
             match script with
             | String code =>
                 script_origin <- ScriptOriginHolder.New (Some properties) ;;
                 scripts <- marshal_scripts_from (ii + 1) rest ;;
                 Return ((c_str code, script_origin) :: scripts)
             | _ => Throw (js_type_error "`code` property is required")
             end
         end)%result
  end.

(** Lines 461-481. *)
Definition marshal_scripts (script_handles : script_array)
  : result (list (string * ScriptOriginHolder.t)) :=
  marshal_scripts_from 0 script_handles.

(** An element of the array that supplies [script]: an object whose [code]
    is a string, of which the script has the text up to its first NUL, and
    whose origin options give the script's origin. *)
Definition supplies (entry : property_name * MaybeLocal script_handle)
    (script : string * ScriptOriginHolder.t) : Prop :=
  exists properties code,
    entry.2 = Handle (ScriptObject properties) /\
    Get properties "code" = Handle (String code) /\
    script.1 = c_str code /\
    ScriptOriginHolder.New (Some properties) = Return script.2.

(** Lines 482-485: the warmup script is assigned from a [char*]. *)
Definition marshal_warmup (warmup_handle : option string) : string :=
  match warmup_handle with
  | Some warmup => c_str warmup
  | None => ""%string
  end.

(** The two contexts of the snapshot creator: [context], which is set as
    its default context, and [context_dirty]. *)
Inductive scope : Type := context | context_dirty.

Definition Script : Type := positive.
Definition UnboundScript : Type := positive.

(** Calls into the snapshot creator's isolate, in program order. *)
Inductive event : Type :=
| SetDefaultContext (c : scope)
| Compile (c : scope) (code : string) (origin : ScriptOriginHolder.ScriptOrigin)
| Run (c : scope) (s : Script)
| ContextDisposedNotification
| AddContext (c : scope)
| CreateBlob.

(** What [CreateSnapshot] returns: [undefined] after
    [ThrowException(exception)] in the caller's isolate, or an
    [ExternalCopyHandle] on a buffer. *)
Inductive returned : Type :=
| ThrowException (exception : Value)
| SnapshotHandle (buffer : list Byte.byte).

Section CreateSnapshot.

(** The state of the snapshot creator's isolate. *)
Variable isolate : Type.
(** [Unmaybe(ScriptCompiler::Compile(c, &source, kNoCompileOptions))]
    under [RunWithAnnotatedErrors]: a script, or the exception left
    pending when [js_runtime_error] is thrown. *)
Variable v8_Compile :
  scope -> string -> ScriptOriginHolder.ScriptOrigin -> isolate -> (Script + Value) * isolate.
(** [Unmaybe(script->Run(c))]: the exception it threw, if any. *)
Variable v8_Run : scope -> Script -> isolate -> option Value * isolate.
Variable GetUnboundScript : Script -> UnboundScript.
Variable BindToCurrentContext : UnboundScript -> scope -> Script.
(** [snapshot_creator.CreateBlob(kKeep)]: the bytes of [StartupData];
    [raw_size] is their number. *)
Variable v8_CreateBlob : isolate -> list Byte.byte.
(** The [ExternalCopy] of a thrown value: null when the value is not
    copied, and the value [CopyInto] makes of a copy in the caller's
    isolate. *)
Variable copy : Type.
Variable CopyIfPrimitiveOrError : Value -> option copy.
Variable CopyInto : copy -> Value.

(** The isolate with the calls made so far. *)
Definition state : Type := isolate * list event.

(** A block that may leave by [js_runtime_error]: [inr] carries
    [try_catch.Exception()]. *)
Definition block (A : Type) : Type := state -> (A + Value) * state.

Definition block_ret {A : Type} (a : A) : block A := fun st => (inl a, st).

Definition block_bind {A B : Type} (m : block A) (k : A -> block B) : block B :=
  fun st =>
    match m st with
    | (inl a, st1) => k a st1
    | (inr exception, st1) => (inr exception, st1)
    end.

Definition do_Compile (c : scope) (code : string) (origin : ScriptOriginHolder.ScriptOrigin)
  : block Script :=
  fun '(iso, trace) =>
    let '(r, iso1) := v8_Compile c code origin iso in
    (r, (iso1, trace ++ [Compile c code origin])).

Definition do_Run (c : scope) (s : Script) : block unit :=
  fun '(iso, trace) =>
    let '(r, iso1) := v8_Run c s iso in
    (match r with Some exception => inr exception | None => inl tt end,
     (iso1, trace ++ [Run c s])).

Definition log (e : event) : block unit :=
  fun '(iso, trace) => (inl tt, (iso, trace ++ [e])).

(** The body of the loop at lines 505-520. *)
Definition embed_script (script : string * ScriptOriginHolder.t) : block unit :=
  let code := c_str script.1 in
  let script_origin := ScriptOriginHolder.ToScriptOrigin script.2 in
  block_bind (do_Compile context code script_origin) (fun compiled_script =>
  block_bind (do_Run context compiled_script) (fun _ =>
  let unbound_script := GetUnboundScript compiled_script in
  do_Run context_dirty (BindToCurrentContext unbound_script context_dirty))).

(** [for (auto& script : scripts)] (line 504) *)
Fixpoint embed_scripts (scripts : list (string * ScriptOriginHolder.t)) : block unit :=
  match scripts with
  | [] => block_ret tt
  | script :: rest => block_bind (embed_script script) (fun _ => embed_scripts rest)
  end.

(** Lines 522-530. *)
Definition run_warmup (warmup_script : string) : block unit :=
  if bool_decide (String.length warmup_script ≠ 0%nat) then
    (* [ScriptOriginHolder script_origin(tmp)] with an empty [tmp] *)
    let script_origin := ScriptOriginHolder.initial in
    block_bind (do_Compile context_dirty (c_str warmup_script)
                  (ScriptOriginHolder.ToScriptOrigin script_origin))
               (fun compiled => do_Run context_dirty compiled)
  else block_ret tt.

(** The [try] block (lines 500-533). *)
Definition try_block (scripts : list (string * ScriptOriginHolder.t)) (warmup_script : string)
  : block unit :=
  block_bind (embed_scripts scripts) (fun _ =>
  block_bind (run_warmup warmup_script) (fun _ =>
  block_bind (log ContextDisposedNotification) (fun _ =>
  log (AddContext context)))).

(** Lines 487-556: the snapshot is built and exported. *)
Definition build_snapshot (scripts : list (string * ScriptOriginHolder.t))
    (warmup_script : string) (iso : isolate) : result returned * list event :=
  let '(r, (iso1, trace1)) :=
    try_block scripts warmup_script (iso, [SetDefaultContext context]) in
  let error : option copy :=
    match r with
    | inl _ => None
    | inr exception => CopyIfPrimitiveOrError exception
    end in
  let '(snapshot, trace2) :=
    match error with
    | None => (v8_CreateBlob iso1, trace1 ++ [CreateBlob])
    | Some _ => ([], trace1)
    end in
  match error with
  | Some e => (Return (ThrowException (CopyInto e)), trace2)
  | None =>
      if bool_decide (length snapshot = 0%nat) then
        (Throw (js_generic_error "Failure creating snapshot"), trace2)
      else (Return (SnapshotHandle snapshot), trace2)
  end.

(** [Local<Value> IsolateHandle::CreateSnapshot(Local<Array> script_handles,
    MaybeLocal<String> warmup_handle)] *)
Definition CreateSnapshot (script_handles : script_array)
    (warmup_handle : option string) (iso : isolate) : result returned * list event :=
  let warmup_script := marshal_warmup warmup_handle in
  let marshalled := marshal_scripts script_handles in
  ((scripts <- marshalled ;; (build_snapshot scripts warmup_script iso).1)%result,
   match marshalled with
   | Return scripts => (build_snapshot scripts warmup_script iso).2
   | _ => []
   end).

(** The build as the specification describes it (section 4.5), run
    against the same engine, to compare [CreateSnapshot] with.  Each
    function gives the calls made from the isolate [iso], the exception
    that aborted the build if one was thrown, and the isolate the calls
    leave.

    "For each program, compile and run it once against a default
    top-level scope, and independently re-run only its already-compiled,
    unbound form against a second dirty top-level scope." *)
Definition spec_program (script : string * ScriptOriginHolder.t) (iso : isolate)
  : list event * option Value * isolate :=
  let code := script.1 in
  let origin := ScriptOriginHolder.ToScriptOrigin script.2 in
  match v8_Compile context code origin iso with
  | (inr exception, iso1) => ([Compile context code origin], Some exception, iso1)
  | (inl compiled, iso1) =>
      match v8_Run context compiled iso1 with
      | (Some exception, iso2) =>
          ([Compile context code origin; Run context compiled], Some exception, iso2)
      | (None, iso2) =>
          let unbound := GetUnboundScript compiled in
          let '(thrown, iso3) :=
            v8_Run context_dirty (BindToCurrentContext unbound context_dirty) iso2 in
          ([Compile context code origin; Run context compiled;
            Run context_dirty (BindToCurrentContext unbound context_dirty)],
           thrown, iso3)
      end
  end.

(** The programs in submission order, up to the first one that throws. *)
Fixpoint spec_programs (scripts : list (string * ScriptOriginHolder.t)) (iso : isolate)
  : list event * option Value * isolate :=
  match scripts with
  | [] => ([], None, iso)
  | script :: rest =>
      match spec_program script iso with
      | (calls, Some exception, iso1) => (calls, Some exception, iso1)
      | (calls, None, iso1) =>
          let '(more, thrown, iso2) := spec_programs rest iso1 in
          (calls ++ more, thrown, iso2)
      end
  end.

(** "If a warmup program is supplied, run it only against the dirty
    scope." *)
Definition spec_warmup (warmup_script : string) (iso : isolate)
  : list event * option Value * isolate :=
  if bool_decide (warmup_script = ""%string) then ([], None, iso)
  else
    let origin := ScriptOriginHolder.ToScriptOrigin ScriptOriginHolder.initial in
    match v8_Compile context_dirty warmup_script origin iso with
    | (inr exception, iso1) => ([Compile context_dirty warmup_script origin], Some exception, iso1)
    | (inl compiled, iso1) =>
        let '(thrown, iso2) := v8_Run context_dirty compiled iso1 in
        ([Compile context_dirty warmup_script origin; Run context_dirty compiled], thrown, iso2)
    end.

(** The programs, then the warmup program.  "Any exception during this
    process aborts the build." *)
Definition spec_build (scripts : list (string * ScriptOriginHolder.t)) (warmup_script : string)
    (iso : isolate) : list event * option Value * isolate :=
  match spec_programs scripts iso with
  | (calls, Some exception, iso1) => (calls, Some exception, iso1)
  | (calls, None, iso1) =>
      let '(more, thrown, iso2) := spec_warmup warmup_script iso1 in
      (calls ++ more, thrown, iso2)
  end.

(** A value some compile or run of the snapshot creator throws. *)
Definition thrown_by_engine (exception : Value) : Prop :=
  (exists c code origin iso, (v8_Compile c code origin iso).1 = inr exception) \/
  (exists c s iso, (v8_Run c s iso).1 = Some exception).

End CreateSnapshot.

Arguments thrown_by_engine {isolate} v8_Compile v8_Run exception.

End IsolateHandle.

(** ** HeapStatRunner (lines 423-454) *)

Module HeapStatRunner.

(** [v8::HeapStatistics], as far as [Phase3] reads it. *)
Record HeapStatistics : Type := {
  total_heap_size : Z;
  total_heap_size_executable : Z;
  total_physical_size : Z;
  total_available_size : Z;
  used_heap_size : Z;
  heap_size_limit : Z;
  malloced_memory : Z;
  peak_malloced_memory : Z;
  does_zap_garbage : Z
}.

Record t : Type := {
  heap : HeapStatistics;
  externally_allocated_size : Z
}.

(** [void Phase2() final] (lines 430-433): [reported] is what
    [GetHeapStatistics] fills in, [allocator] the allocator of the current
    isolate, which is a [LimitedAllocator] for every isolate
    [IsolateHandle::New] makes (the [dynamic_cast] of line 432 is only
    defined then). *)
Definition Phase2 (reported : HeapStatistics) (allocator : LimitedAllocator.t) (r : t) : t :=
  {| heap := reported;
     externally_allocated_size := LimitedAllocator.GetAllocatedSize allocator |}.

Section Phase3.

(** The double a [size_t] converts to when it is passed to
    [Number::New]. *)
Variable double_of_size_t : Z -> spec_float.

(** [Local<Value> Phase3() final] (lines 435-449): the properties set on
    the object that is returned. *)
Definition Phase3 (r : t) : gmap string Value :=
  let ret : gmap string Value := ∅ in
  let ret := <["total_heap_size" := Number (double_of_size_t (total_heap_size (heap r)))]> ret in
  let ret := <["total_heap_size_executable" :=
                 Number (double_of_size_t (total_heap_size_executable (heap r)))]> ret in
  let ret := <["total_physical_size" := Number (double_of_size_t (total_physical_size (heap r)))]> ret in
  let ret := <["total_available_size" := Number (double_of_size_t (total_available_size (heap r)))]> ret in
  let ret := <["used_heap_size" := Number (double_of_size_t (used_heap_size (heap r)))]> ret in
  let ret := <["heap_size_limit" := Number (double_of_size_t (heap_size_limit (heap r)))]> ret in
  let ret := <["malloced_memory" := Number (double_of_size_t (malloced_memory (heap r)))]> ret in
  let ret := <["peak_malloced_memory" := Number (double_of_size_t (peak_malloced_memory (heap r)))]> ret in
  let ret := <["does_zap_garbage" := Number (double_of_size_t (does_zap_garbage (heap r)))]> ret in
  <["externally_allocated_size" := Number (double_of_size_t (externally_allocated_size r))]> ret.

End Phase3.

End HeapStatRunner.

(** ** Shapes of call sequences *)

(** A compile or a run in the snapshot creator. *)
Definition is_script_call (e : IsolateHandle.event) : bool :=
  match e with
  | IsolateHandle.Compile _ _ _ | IsolateHandle.Run _ _ => true
  | _ => false
  end.

(** A reset that releases a context. *)
Definition is_release (e : CreateContextRunner.event) : bool :=
  match e with
  | CreateContextRunner.PersistentReset (Some _) => true
  | _ => false
  end.

(** * Properties *)

(** ** Machine integers *)

Lemma SIZE_MODULUS_eq : SIZE_MODULUS = 18446744073709551616.
Proof. reflexivity. Qed.

Lemma size_t_id x : is_size_t x -> size_t x = x.
Proof. unfold is_size_t, size_t. intros. apply Z.mod_small. lia. Qed.

(** ** LimitedAllocator *)

Module LimitedAllocatorFacts.
Import LimitedAllocator.

(** Without wrap-around the projected total is the mathematical sum. *)
Lemma projected_exact a length :
  0 <= v8_heap a -> 0 <= my_heap a -> 0 <= length ->
  v8_heap a + my_heap a + length < SIZE_MODULUS ->
  projected a length = v8_heap a + my_heap a + length.
Proof.
  intros Hv Hm Hl Hfit. unfold projected.
  rewrite (size_t_id (v8_heap a + my_heap a)) by (unfold is_size_t; lia).
  apply size_t_id. unfold is_size_t. lia.
Qed.

(** [Check] leaves the limit alone, and the estimate of the engine heap it
    ends with is the old one or the freshly reported one. *)
Lemma Check_frame total_heap_size length a :
  limit (Check total_heap_size length a).2 = limit a /\
  (v8_heap (Check total_heap_size length a).2 = v8_heap a \/
   v8_heap (Check total_heap_size length a).2 = total_heap_size).
Proof.
  unfold Check.
  destruct (projected a length >? next_check a); cbn.
  - destruct (projected (set_v8_heap total_heap_size a) length >? limit a); cbn.
    + auto.
    + match goal with |- context [if ?c then _ else _] => destruct c end; cbn; auto.
  - destruct (projected a length >? limit a); cbn; auto.
Qed.

(** One call of [Check] whose sums do not wrap: it answers [false] exactly
    when the estimate it ends with, the tracked bytes and the request
    together exceed the limit, and it adds the request to the tracked
    bytes exactly when it answers [true]. *)
Lemma Check_sound total_heap_size length a :
  0 <= total_heap_size -> 0 <= v8_heap a -> 0 <= my_heap a -> 0 <= length ->
  v8_heap a + my_heap a + length < SIZE_MODULUS ->
  total_heap_size + my_heap a + length < SIZE_MODULUS ->
  let '(ok, a') := Check total_heap_size length a in
  if ok
  then my_heap a' = my_heap a + length /\ v8_heap a' + my_heap a' <= limit a
  else my_heap a' = my_heap a /\ limit a < v8_heap a' + my_heap a + length.
Proof.
  intros Hh Hv Hm Hl Hfit Hfit'.
  pose proof (projected_exact a length Hv Hm Hl Hfit) as Hp.
  pose proof (projected_exact (set_v8_heap total_heap_size a) length Hh Hm Hl Hfit') as Hp'.
  unfold Check, projected in *. cbn in *. rewrite ?Hp, ?Hp'.
  repeat (match goal with
          | |- context [?x >? ?y] => destruct (Z.gtb_spec x y)
          end; cbn; rewrite ?Hp, ?Hp');
    rewrite ?size_t_id by (unfold is_size_t; lia); lia.
Qed.

Lemma Allocate_Check total_heap_size calloc_result length a :
  Allocate total_heap_size calloc_result length a
  = (if (Check total_heap_size length a).1 then calloc_result else nullptr,
     (Check total_heap_size length a).2).
Proof. unfold Allocate. destruct (Check _ _ _) as [[] ?]; reflexivity. Qed.

Lemma AllocateUninitialized_Allocate total_heap_size malloc_result length a :
  AllocateUninitialized total_heap_size malloc_result length a
  = Allocate total_heap_size malloc_result length a.
Proof. reflexivity. Qed.

Lemma total_length_app l1 l2 : total_length (l1 ++ l2) = total_length l1 + total_length l2.
Proof. unfold total_length. induction l1 as [|x l1 IH]; cbn; [reflexivity | rewrite IH; lia]. Qed.

Lemma total_length_nonneg l : Forall (fun n => 0 <= n) l -> 0 <= total_length l.
Proof. unfold total_length. induction 1; cbn; lia. Qed.

Lemma Allocate_invariant L B a live total_heap_size calloc_result length :
  invariant L B a live ->
  0 <= total_heap_size <= B -> 0 <= length -> B + L + length < SIZE_MODULUS ->
  invariant L B (Allocate total_heap_size calloc_result length a).2
    (if is_null (Allocate total_heap_size calloc_result length a).1 then live else length :: live).
Proof.
  intros (Hlim & Hv & Hm & Hpos & Hsum) Hh Hl Hfit.
  pose proof (Check_sound total_heap_size length a) as Hs.
  pose proof (Check_frame total_heap_size length a) as [Hlim' Hest].
  rewrite Allocate_Check. cbn [fst snd].
  destruct (Check total_heap_size length a) as [ok a'] eqn:E. cbn [fst snd] in *.
  specialize (Hs ltac:(lia) ltac:(lia) ltac:(lia) ltac:(lia) ltac:(lia) ltac:(lia)).
  unfold invariant. destruct ok.
  - destruct Hs as [Hmy Hle].
    assert (Hpos' : Forall (fun n => 0 <= n) (length :: live)) by (constructor; assumption).
    destruct (is_null calloc_result); repeat split; try assumption; try lia;
      unfold total_length in *; cbn; lia.
  - destruct Hs as [Hmy Hgt]. cbn [is_null]. repeat split; try assumption; lia.
Qed.

Lemma Free_invariant L B a live1 length live2 :
  is_size_t L ->
  invariant L B a (live1 ++ length :: live2) ->
  invariant L B (Free length a) (live1 ++ live2).
Proof.
  intros HL (Hlim & Hv & Hm & Hpos & Hsum).
  apply Forall_app in Hpos as [Hpos1 Hpos2].
  apply Forall_cons in Hpos2 as [Hl Hpos2].
  rewrite total_length_app in Hsum.
  change (total_length (length :: live2)) with (length + total_length live2) in Hsum.
  pose proof (total_length_nonneg _ Hpos1). pose proof (total_length_nonneg _ Hpos2).
  unfold invariant, Free. cbn.
  rewrite (size_t_id (my_heap a - length)) by (unfold is_size_t in *; lia).
  rewrite total_length_app.
  repeat split; try assumption; try lia.
  apply Forall_app; split; assumption.
Qed.

Lemma reachable_invariant L B a live :
  is_size_t L -> reachable L B a live -> invariant L B a live.
Proof.
  intros HL. induction 1.
  - unfold invariant, New, total_length. cbn. unfold is_size_t in HL.
    repeat split; try lia. constructor.
  - apply Allocate_invariant; assumption.
  - rewrite AllocateUninitialized_Allocate. apply Allocate_invariant; assumption.
  - apply Free_invariant; assumption.
Qed.

(** As long as the sums of [Check] fit [size_t], which the bounds of
    [reachable] provide, an allocator built with limit [L] keeps within
    [L]: in every state it reaches, a request whose length, added to the
    estimate of the engine heap the check ends with and to the tracked
    bytes, exceeds [L] gets the null pointer and is not added to the
    tracked bytes; and whenever a request gets a block, the estimate plus
    the tracked bytes, the new block included, is at most [L].
    [Allocate] and [AllocateUninitialized] alike. *)
Lemma allocation_respects_limit L B a live total_heap_size libc_result length :
  is_size_t L ->
  reachable L B a live ->
  0 <= total_heap_size <= B -> 0 <= length -> B + L + length < SIZE_MODULUS ->
  forall allocate, allocate = Allocate \/ allocate = AllocateUninitialized ->
  let p := (allocate total_heap_size libc_result length a).1 in
  let a' := (allocate total_heap_size libc_result length a).2 in
  limit a' = L /\
  (L < v8_heap a' + my_heap a + length -> p = nullptr /\ my_heap a' = my_heap a) /\
  (p <> nullptr -> my_heap a' = my_heap a + length /\ v8_heap a' + my_heap a' <= L).
Proof.
  intros HL Hreach Hh Hl Hfit allocate Hallocate p a'.
  assert (allocate = Allocate) as -> by (destruct Hallocate; subst; reflexivity).
  subst p a'.
  destruct (reachable_invariant L B a live HL Hreach) as (Hlim & Hv & Hm & _ & _).
  pose proof (Check_sound total_heap_size length a) as Hs.
  pose proof (Check_frame total_heap_size length a) as [Hlim' _].
  rewrite Allocate_Check. cbn [fst snd].
  destruct (Check total_heap_size length a) as [ok a'] eqn:E. cbn [fst snd] in *.
  specialize (Hs ltac:(lia) ltac:(lia) ltac:(lia) ltac:(lia) ltac:(lia) ltac:(lia)).
  destruct ok.
  - destruct Hs as [Hmy Hle]. repeat split; try lia.
  - destruct Hs as [Hmy Hgt]. repeat split; try lia; try congruence.
Qed.

(** An allocator of 8 MiB that has handed out 1 MiB and is asked for 2 MiB
    more while the engine reports a heap of 6 MiB. *)
Lemma allocation_respects_limit_witness :
  let L := 8 * 1024 * 1024 in
  let B := 16 * 1024 * 1024 in
  let a := (Allocate (5 * 1024 * 1024) (address 1) (1024 * 1024) (New L)).2 in
  let total_heap_size := 6 * 1024 * 1024 in
  let length := 2 * 1024 * 1024 in
  let p := (Allocate total_heap_size (address 2) length a).1 in
  let a' := (Allocate total_heap_size (address 2) length a).2 in
  (is_size_t L /\ reachable L B a [1024 * 1024] /\ 0 <= total_heap_size <= B /\ 0 <= length /\
   B + L + length < SIZE_MODULUS) /\
  limit a' = L /\
  (L < v8_heap a' + my_heap a + length -> p = nullptr /\ my_heap a' = my_heap a) /\
  (p <> nullptr -> my_heap a' = my_heap a + length /\ v8_heap a' + my_heap a' <= L).
Proof.
  intros L B a total_heap_size length.
  assert (H1 : is_size_t L) by (unfold is_size_t; rewrite SIZE_MODULUS_eq; subst L; lia).
  assert (H2 : reachable L B a [1024 * 1024]).
  { apply (reachable_Allocate L B (New L) [] (5 * 1024 * 1024) (address 1) (1024 * 1024)).
    - apply reachable_New. subst B. lia.
    - subst B. lia.
    - lia.
    - rewrite SIZE_MODULUS_eq. subst L B. lia. }
  assert (H3 : 0 <= total_heap_size <= B) by (subst total_heap_size B; lia).
  assert (H4 : 0 <= length) by (subst length; lia).
  assert (H5 : B + L + length < SIZE_MODULUS) by (rewrite SIZE_MODULUS_eq; subst L B length; lia).
  split; [repeat split; assumption || apply H1 || apply H3 |].
  exact (allocation_respects_limit L B a [1024 * 1024] total_heap_size (address 2) length
           H1 H2 H3 H4 H5 Allocate (or_introl eq_refl)).
Defined.

(** C2 on an allocator of 8 MiB, asked for [2^64 - 4 MiB] bytes and then
    for 8 MiB, the engine heap being 4 MiB.  The sums on lines 75 and 84
    wrap around [size_t]: the first request, far beyond the limit, passes
    [Check] without a query of the engine and is charged although [calloc]
    fails; the tracked bytes are then so large that the second request
    wraps the sums again, passes, and gets a block of 8 MiB.  The
    attributed total of that request exceeds the limit, and so does the
    engine heap together with the block handed out. *)
Theorem allocation_beyond_limit :
  let MiB := 1024 * 1024 in
  let L := 8 * MiB in
  let huge := SIZE_MODULUS - 4 * MiB in
  let first := Allocate (4 * MiB) nullptr huge (New L) in
  let second := Allocate (4 * MiB) (address 1) (8 * MiB) first.2 in
  is_size_t huge /\
  (Check (4 * MiB) huge (New L)).1 = true /\
  v8_heap first.2 = 4 * MiB /\ my_heap first.2 = huge /\
  second.1 = address 1 /\
  L < v8_heap first.2 + my_heap first.2 + 8 * MiB /\
  v8_heap second.2 = 4 * MiB /\
  L < v8_heap second.2 + total_length [8 * MiB].
Proof.
  cbn zeta. unfold is_size_t. rewrite SIZE_MODULUS_eq. vm_compute.
  repeat split; reflexivity || discriminate.
Qed.

(** One request is enough for [Check] to go wrong: a request so large that
    the sum on line 75 wraps around [size_t] passes it. *)
Remark Check_wraps_around :
  Check (4 * 1024 * 1024) (SIZE_MODULUS - 4 * 1024 * 1024) (New (8 * 1024 * 1024))
  = (true, {| limit := 8 * 1024 * 1024; v8_heap := 4 * 1024 * 1024;
              my_heap := SIZE_MODULUS - 4 * 1024 * 1024; next_check := 1024 * 1024 |}).
Proof. reflexivity. Qed.

(** C7, as stated, fails: the allocator of an isolate with the least
    memory limit, asked for zero bytes when the engine reports a heap of
    9 MiB, answers with the null pointer although [calloc] had a block. *)
Lemma zero_length_allocation_refused :
  (Allocate (9 * 1024 * 1024) (address 1) 0 (New (8 * 1024 * 1024))).1 = nullptr.
Proof. reflexivity. Qed.

(** C7, amended.  In every state a request of length zero is decided by the
    budget alone: it gets what [calloc] (or [malloc]) returns exactly when
    the estimate of the engine heap the check ends with plus the tracked
    bytes, as a [size_t] sum, does not exceed the limit, so also when they
    have reached the limit exactly, and the null pointer otherwise.  That
    estimate is the cached one or the one the engine reports. *)
Theorem zero_length_allocation total_heap_size libc_result a :
  forall allocate, allocate = Allocate \/ allocate = AllocateUninitialized ->
  let p := (allocate total_heap_size libc_result 0 a).1 in
  let a' := (allocate total_heap_size libc_result 0 a).2 in
  (v8_heap a' = v8_heap a \/ v8_heap a' = total_heap_size) /\
  p = if size_t (v8_heap a' + my_heap a) <=? limit a then libc_result else nullptr.
Proof.
  intros allocate Hallocate p a'.
  assert (allocate = Allocate) as -> by (destruct Hallocate; subst; reflexivity).
  subst p a'. rewrite Allocate_Check. cbn [fst snd].
  split; [apply Check_frame |].
  assert (Hz : forall x, size_t (size_t x + 0) = size_t x).
  { intros x. rewrite Z.add_0_r. unfold size_t. apply Z.mod_mod. rewrite SIZE_MODULUS_eq. lia. }
  unfold Check, projected. cbn. rewrite !Hz.
  repeat (match goal with
          | |- context [?x >? ?y] => destruct (Z.gtb_spec x y)
          end; cbn; rewrite ?Hz);
    match goal with
    | |- context [?x <=? ?y] => destruct (Z.leb_spec x y)
    end; try reflexivity; lia.
Qed.

(** An allocator of 8 MiB whose estimate of the engine heap and tracked
    bytes, 4 MiB each, have reached the limit: a request of length zero
    still gets the block [calloc] returns. *)
Lemma zero_length_allocation_witness :
  let a := (Allocate (4 * 1024 * 1024) (address 1) (4 * 1024 * 1024) (New (8 * 1024 * 1024))).2 in
  let p := (Allocate (4 * 1024 * 1024) (address 2) 0 a).1 in
  v8_heap a + my_heap a = limit a /\ p = address 2.
Proof.
  split; [reflexivity |].
  exact (proj2 (zero_length_allocation (4 * 1024 * 1024) (address 2)
                  (Allocate (4 * 1024 * 1024) (address 1) (4 * 1024 * 1024)
                     (New (8 * 1024 * 1024))).2
                  Allocate (or_introl eq_refl))).
Defined.

End LimitedAllocatorFacts.

(** ** Context deleter and disposer *)

Module CreateContextRunnerFacts.
Import CreateContextRunner.

(** C1, as stated, fails: with the holder still alive, the task the
    deleter schedules is not scheduled with both flags set. *)
Lemma deleter_does_not_require_heap_scope :
  ~ (exists task,
       ContextDeleter_call (fun _ => true)
         {| isolate := 1%positive; deleter_has_inspector := false |} (Some 7%positive)
       = [ScheduleTask 1%positive task true true]).
Proof. intros [task H]. cbn in H. discriminate H. Qed.

(** C1, amended.  Handed the last pointer to a context, the deleter makes
    no call into v8 of its own.  It tries to upgrade its weak reference to
    the holder.  When that fails it schedules nothing: the [Persistent]
    object it owns is deleted as it is.  Otherwise it makes exactly one
    call, [ScheduleTask] on that holder, with a disposer that owns the
    context and carries the deleter's inspector flag, with
    [run_inline = true] and the third argument [false]. *)
Theorem deleter_schedules_disposal alive d ptr :
  (alive (isolate d) = false ->
     ContextDeleter_call alive d ptr = [Delete ptr]) /\
  (alive (isolate d) = true ->
     ContextDeleter_call alive d ptr
     = [ScheduleTask (isolate d)
          {| context := ptr; has_inspector := deleter_has_inspector d |} true false]).
Proof.
  unfold ContextDeleter_call, lock.
  split; intros ->; reflexivity.
Qed.

Lemma deleter_schedules_disposal_witness :
  let d := {| isolate := 1%positive; deleter_has_inspector := true |} in
  ((fun _ => false) (isolate d) = false /\
   ContextDeleter_call (fun _ => false) d (Some 7%positive) = [Delete (Some 7%positive)]) /\
  ((fun _ => true) (isolate d) = true /\
   ContextDeleter_call (fun _ => true) d (Some 7%positive)
   = [ScheduleTask 1%positive {| context := Some 7%positive; has_inspector := true |} true false]).
Proof.
  split; (split; [reflexivity |]).
  - apply (proj1 (deleter_schedules_disposal (fun _ => false)
                    {| isolate := 1%positive; deleter_has_inspector := true |} (Some 7%positive))).
    reflexivity.
  - apply (proj2 (deleter_schedules_disposal (fun _ => true)
                    {| isolate := 1%positive; deleter_has_inspector := true |} (Some 7%positive))).
    reflexivity.
Defined.

(** C3, as stated, fails: for a context with an inspector the disposer
    resets the persistent reference first and notifies the inspector
    afterwards.  In the calls of [Run] the release of context 7 comes at
    an earlier position than the notification of its destruction. *)
Lemma disposer_releases_before_notifying :
  ~ (forall i j,
       (Run {| context := Some 7%positive; has_inspector := true |}).1 !! i
         = Some (ContextDestroyed (Some 7%positive)) ->
       (Run {| context := Some 7%positive; has_inspector := true |}).1 !! j
         = Some (PersistentReset (Some 7%positive)) ->
       (i < j)%nat).
Proof. intros H. specialize (H 2%nat 1%nat eq_refl eq_refl). lia. Qed.

(** C3, amended.  For a context with an inspector the disposer, run on the
    isolate's thread, takes a local handle to the context, resets the
    persistent reference, which releases the context, and then notifies
    the inspector of the destruction through the local handle; the second
    reset finds the reference empty, and the isolate is told last that a
    context was disposed.  Without an inspector there is the reset and the
    notification of the isolate only. *)
Theorem disposer_calls c :
  Run {| context := Some c; has_inspector := true |}
  = ([LocalNew (Some c); PersistentReset (Some c); ContextDestroyed (Some c);
      PersistentReset None; ContextDisposedNotification],
     {| context := None; has_inspector := true |}) /\
  Run {| context := Some c; has_inspector := false |}
  = ([PersistentReset (Some c); ContextDisposedNotification],
     {| context := None; has_inspector := false |}).
Proof. split; reflexivity. Qed.

(** The deleter of a context made by [Phase2] carries the runner's
    inspector flag and refers to the holder that was current. *)
Lemma Phase2_deleter env current_holder context_handle r events made :
  Phase2 env current_holder context_handle r = Return (events, made) ->
  context_deleter made
  = {| isolate := current_holder; deleter_has_inspector := enable_inspector r |} /\
  context_ptr made = Some context_handle.
Proof.
  unfold Phase2. destruct (_ && _); [discriminate |].
  intros [= <- <-]. split; reflexivity.
Qed.

End CreateContextRunnerFacts.

(** ** Script compilation with code caches *)

Module CompileScriptRunnerFacts.
Import CompileScriptRunner.

(** What the constructor leaves in the runner when the [cachedData] option
    is a handle on an array buffer. *)
Lemma New_cached_data isolate code options blob r :
  Get options "cachedData" = Handle (Object (ExternalCopyHandle (ExternalCopyArrayBuffer blob))) ->
  New isolate code (Some options) = Return r ->
  cached_data_blob r = Some blob /\
  produce_cached_data r = match Get options "produceCachedData" with
                          | Handle v => IsTrue v
                          | Empty _ => false
                          end /\
  supplied_cached_data r = false /\ cached_data_rejected r = false /\
  isolate = CompileScriptRunner.isolate r.
Proof.
  intros Hget. unfold New. rewrite Hget.
  destruct (ScriptOriginHolder.New (Some options)) as [holder| | |]; cbn; try discriminate.
  intros [= <-]. cbn. repeat split; reflexivity.
Qed.

(** With a cache supplied, [Phase2] returns whenever the copy of the code
    and the compiler do, whatever the compiler's verdict on the cache. *)
Lemma Phase2_consume copy_code compile r blob code_inner script cache_rejected produced :
  cached_data_blob r = Some blob ->
  copy_code (code_string r) = Return code_inner ->
  compile (source code_inner r) (compile_options r) = Compiled script cache_rejected produced ->
  Phase2 copy_code compile r
  = Return (Build (isolate r) (code_string r) (script_origin_holder r) None
              (produce_cached_data r) (Some script) true cache_rejected).
Proof.
  intros Hblob Hcopy Hcompile. unfold Phase2. rewrite Hcopy. cbn [bind]. rewrite Hcompile.
  unfold GetCachedData, source. cbn. rewrite Hblob. reflexivity.
Qed.

(** C4.  A [compileScript] call whose [cachedData] option is a handle on
    an array buffer, and whose code is copied into the isolate and
    compiles, goes through whether or not the compiler rejects the cache:
    [Phase2] returns, and the [Script] object [Phase3] makes wraps the
    compiled script and has the property [cachedDataRejected], a boolean
    that is the compiler's verdict. *)
Theorem cache_rejection_is_reported copy_code compile isolate code options blob r
    code_inner script cache_rejected produced :
  Get options "cachedData" = Handle (Object (ExternalCopyHandle (ExternalCopyArrayBuffer blob))) ->
  New isolate code (Some options) = Return r ->
  copy_code (code_string r) = Return code_inner ->
  compile (source code_inner r) (compile_options r) = Compiled script cache_rejected produced ->
  exists r2,
    Phase2 copy_code compile r = Return r2 /\
    handle_script (Phase3 r2) = Some script /\
    handle_isolate (Phase3 r2) = isolate /\
    properties (Phase3 r2) !! "cachedDataRejected" = Some (Boolean cache_rejected).
Proof.
  intros Hget Hnew Hcopy Hcompile.
  destruct (New_cached_data _ _ _ _ _ Hget Hnew) as (Hblob & _ & _ & _ & Hiso).
  eexists. split; [eapply Phase2_consume; eassumption |].
  unfold Phase3. cbn.
  split; [reflexivity |]. split; [symmetry; exact Hiso |].
  apply lookup_insert_eq.
Qed.

Lemma cache_rejection_is_reported_witness :
  let isolate := {| holder_id := 2%positive; GetIsolate := None |} in
  let blob := [Byte.x01; Byte.x02] in
  let options : gmap string property :=
    {[ "cachedData" := data_property (Object (ExternalCopyHandle (ExternalCopyArrayBuffer blob)));
       "produceCachedData" := data_property (Boolean true) ]} in
  let copy_code := fun code : string => Return code in
  let compile := fun (_ : Source) (_ : CompileOptions) => Compiled 5%positive true None in
  exists r,
    (Get options "cachedData" = Handle (Object (ExternalCopyHandle (ExternalCopyArrayBuffer blob))) /\
     New isolate "1 + 1" (Some options) = Return r /\
     copy_code (code_string r) = Return "1 + 1"%string /\
     compile (source "1 + 1" r) (compile_options r) = Compiled 5%positive true None) /\
    exists r2,
      Phase2 copy_code compile r = Return r2 /\
      handle_script (Phase3 r2) = Some 5%positive /\
      handle_isolate (Phase3 r2) = isolate /\
      properties (Phase3 r2) !! "cachedDataRejected" = Some (Boolean true).
Proof.
  intros isolate blob options copy_code compile.
  assert (Hget : Get options "cachedData"
                 = Handle (Object (ExternalCopyHandle (ExternalCopyArrayBuffer blob))))
    by (vm_compute; reflexivity).
  eexists. split.
  - split; [exact Hget |]. split; [vm_compute; reflexivity |]. split; reflexivity.
  - eapply (cache_rejection_is_reported copy_code compile isolate "1 + 1" options blob).
    + exact Hget.
    + vm_compute; reflexivity.
    + reflexivity.
    + reflexivity.
Defined.




End CompileScriptRunnerFacts.

(** ** Isolate handles *)

Module IsolateHandleFacts.
Import IsolateHandle.

(** *** Creation *)

(** Without options, or without a [memoryLimit] among them, the limit is
    128 and the allocator gets 128 MiB. *)
Lemma New_default_memory_limit :
  New None = Return (build 128 None false) /\
  forall options made,
    Get options "memoryLimit" = Handle Undefined ->
    New (Some options) = Return made ->
    memory_limit made = 128 /\
    LimitedAllocator.limit (allocator made) = 128 * 1024 * 1024.
Proof.
  split; [reflexivity |].
  intros options made Hget. unfold New. rewrite Hget. cbn.
  destruct (Unmaybe (Get options "snapshot")); cbn; try discriminate.
  destruct (parse_snapshot _); cbn; try discriminate.
  destruct (Unmaybe (Get options "inspector")); cbn; try discriminate.
  intros [= <-]. split; reflexivity.
Qed.

(** A [memoryLimit] that is not a number is refused before anything is
    built. *)
Lemma New_memory_limit_not_a_number options v :
  Get options "memoryLimit" = Handle v ->
  v <> Undefined ->
  IsNumber v = false ->
  New (Some options) = Throw (js_generic_error "`memoryLimit` must be a number").
Proof.
  unfold New. intros ->. destruct v; cbn; intros; congruence.
Qed.

(** A [memoryLimit] whose conversion to [size_t] is defined and gives less
    than 8 is refused before anything is built. *)
Lemma New_memory_limit_below_floor options d n :
  Get options "memoryLimit" = Handle (Number d) ->
  double_to_size_t d = Some n ->
  n < 8 ->
  New (Some options) = Throw (js_generic_error "`memoryLimit` must be at least 8").
Proof.
  intros Hget Hd Hn. unfold New. rewrite Hget. cbn. rewrite Hd.
  destruct (Z.ltb_spec n 8); [reflexivity | lia].
Qed.

(** A [memoryLimit] that truncates to a negative integer is not refused:
    its conversion to [size_t] is undefined, and it is that conversion, not
    the number, that line 173 compares with 8. *)
Lemma New_memory_limit_negative options d z :
  Get options "memoryLimit" = Handle (Number d) ->
  truncate d = Some z ->
  z < 0 ->
  New (Some options) = UndefinedBehaviour.
Proof.
  intros Hget Hd Hz. unfold New. rewrite Hget. cbn.
  unfold double_to_size_t. rewrite Hd.
  destruct (Z.leb_spec 0 z); [lia | reflexivity].
Qed.

(** C8 at [memoryLimit: -5].  The number, the binary64 [-5], is below the
    floor, yet [New] does not throw: the conversion to [size_t] on line
    172 comes before the comparison with 8 and is undefined for a negative
    number. *)
Lemma New_negative_memory_limit :
  let minus_five := S754_finite true 5629499534213120 (-50) in
  valid_binary 53 1024 minus_five = true /\
  truncate minus_five = Some (-5) /\
  New (Some {[ "memoryLimit" := data_property (Number minus_five) ]}) = UndefinedBehaviour.
Proof. repeat split; vm_compute; reflexivity. Qed.

(** *** Inspector sessions *)

(** C9.  [CreateInspectorSession] throws, having scheduled nothing and
    made no session handle, when it is called from inside the isolate of
    the handle, whatever the state of that isolate; else when the isolate
    is disposed; else when its environment has no inspector agent.  In the
    one remaining case it returns a session handle on the environment. *)
Theorem CreateInspectorSession_refusals current_holder isolate :
  (current_holder = holder_id isolate ->
     CreateInspectorSession current_holder isolate
     = (Throw (js_generic_error "An isolate is not debuggable from within itself"), [])) /\
  (current_holder <> holder_id isolate ->
   GetIsolate isolate = None ->
     CreateInspectorSession current_holder isolate
     = (Throw (js_generic_error "Isolate is diposed"), [])) /\
  (forall env,
     current_holder <> holder_id isolate ->
     GetIsolate isolate = Some env ->
     GetInspectorAgent env = None ->
     CreateInspectorSession current_holder isolate
     = (Throw (js_generic_error "Inspector is not enabled for this isolate"), [])) /\
  (forall env agent,
     current_holder <> holder_id isolate ->
     GetIsolate isolate = Some env ->
     GetInspectorAgent env = Some agent ->
     CreateInspectorSession current_holder isolate
     = (Return env, [SessionHandleCreated env])).
Proof.
  unfold CreateInspectorSession.
  repeat split.
  - intros ->. rewrite bool_decide_eq_true_2 by reflexivity. reflexivity.
  - intros Hne ->. rewrite bool_decide_eq_false_2 by exact Hne. reflexivity.
  - intros env Hne -> ->. rewrite bool_decide_eq_false_2 by exact Hne. reflexivity.
  - intros env agent Hne -> ->. rewrite bool_decide_eq_false_2 by exact Hne. reflexivity.
Qed.

Lemma CreateInspectorSession_refusals_witness :
  let disposed := {| holder_id := 1%positive; GetIsolate := None |} in
  let plain := {| env_id := 3%positive; GetInspectorAgent := None |} in
  let without_agent := {| holder_id := 1%positive; GetIsolate := Some plain |} in
  (1%positive = holder_id disposed /\
   CreateInspectorSession 1%positive disposed
   = (Throw (js_generic_error "An isolate is not debuggable from within itself"), [])) /\
  ((2%positive <> holder_id disposed /\ GetIsolate disposed = None) /\
   CreateInspectorSession 2%positive disposed
   = (Throw (js_generic_error "Isolate is diposed"), [])) /\
  ((2%positive <> holder_id without_agent /\ GetIsolate without_agent = Some plain /\
    GetInspectorAgent plain = None) /\
   CreateInspectorSession 2%positive without_agent
   = (Throw (js_generic_error "Inspector is not enabled for this isolate"), [])).
Proof.
  intros disposed plain without_agent.
  assert (Hne : 2%positive <> 1%positive) by discriminate.
  split; [split; [reflexivity |] | split; [split; [split; [exact Hne | reflexivity] |]
                                          | split; [split; [exact Hne | split; reflexivity] |]]].
  - exact (proj1 (CreateInspectorSession_refusals 1%positive disposed) eq_refl).
  - exact (proj1 (proj2 (CreateInspectorSession_refusals 2%positive disposed)) Hne eq_refl).
  - exact (proj1 (proj2 (proj2 (CreateInspectorSession_refusals 2%positive without_agent)))
             plain Hne eq_refl eq_refl).
Defined.

(** *** Snapshots *)

Lemma c_str_idempotent (s : string) : c_str (c_str s) = c_str s.
Proof.
  induction s as [| c rest IH]; [reflexivity |].
  cbn. destruct (Ascii.eqb c Ascii.zero) eqn:E; [reflexivity |].
  cbn. rewrite E, IH. reflexivity.
Qed.

Lemma length_zero_empty (s : string) : String.length s = 0%nat <-> s = ""%string.
Proof. destruct s; cbn; split; intros; congruence. Qed.

(** The scripts come out of the array in its order, each supplied by the
    element at its place. *)
Lemma marshal_scripts_from_order script_handles : forall ii scripts,
  marshal_scripts_from ii script_handles = Return scripts ->
  Forall2 supplies script_handles scripts.
Proof.
  induction script_handles as [| [name element] rest IH]; intros ii scripts H.
  - injection H as <-. constructor.
  - cbn [marshal_scripts_from] in H.
    destruct (Unmaybe (ToArrayIndex name)) as [key | | |]; try discriminate H.
    cbn [bind] in H.
    destruct (negb (key =? ii)); [discriminate H |].
    destruct element as [[properties | v] | pending]; try discriminate H.
    cbn [Unmaybe bind] in H.
    destruct (Get properties "code") as [script | pending] eqn:Hcode; try discriminate H.
    cbn [Unmaybe bind] in H.
    destruct script as [| | | | code |]; try discriminate H.
    destruct (ScriptOriginHolder.New (Some properties)) as [origin | | |] eqn:Horigin;
      try discriminate H.
    cbn [bind] in H.
    destruct (marshal_scripts_from (ii + 1) rest) as [scripts' | | |] eqn:Hrest;
      try discriminate H.
    injection H as <-. constructor; [| apply (IH (ii + 1)); exact Hrest].
    exists properties, code. repeat split; assumption.
Qed.

(** Scripts that were marshalled hold no NUL. *)
Lemma supplied_text script_handles scripts :
  Forall2 supplies script_handles scripts ->
  Forall (fun script => c_str script.1 = script.1) scripts.
Proof.
  induction 1 as [| entry script rest scripts (properties & code & _ & _ & Htext & _) _ IH];
    constructor; [| exact IH].
  rewrite Htext. apply c_str_idempotent.
Qed.

Lemma marshal_warmup_text warmup_handle :
  c_str (marshal_warmup warmup_handle) = marshal_warmup warmup_handle.
Proof. destruct warmup_handle; [apply c_str_idempotent | reflexivity]. Qed.

Section Snapshot.

Context {isolate : Type}.
Context (v8_Compile :
           scope -> string -> ScriptOriginHolder.ScriptOrigin -> isolate -> (Script + Value) * isolate).
Context (v8_Run : scope -> Script -> isolate -> option Value * isolate).
Context (GetUnboundScript : Script -> UnboundScript).
Context (BindToCurrentContext : UnboundScript -> scope -> Script).
Context (v8_CreateBlob : isolate -> list Byte.byte).
Context {copy : Type}.
Context (CopyIfPrimitiveOrError : Value -> option copy).
Context (CopyInto : copy -> Value).

Local Abbreviation embed_script :=
  (embed_script isolate v8_Compile v8_Run GetUnboundScript BindToCurrentContext).
Local Abbreviation embed_scripts :=
  (embed_scripts isolate v8_Compile v8_Run GetUnboundScript BindToCurrentContext).
Local Abbreviation run_warmup := (run_warmup isolate v8_Compile v8_Run).
Local Abbreviation try_block :=
  (try_block isolate v8_Compile v8_Run GetUnboundScript BindToCurrentContext).
Local Abbreviation build_snapshot :=
  (build_snapshot isolate v8_Compile v8_Run GetUnboundScript BindToCurrentContext
     v8_CreateBlob copy CopyIfPrimitiveOrError CopyInto).
Local Abbreviation CreateSnapshot :=
  (CreateSnapshot isolate v8_Compile v8_Run GetUnboundScript BindToCurrentContext
     v8_CreateBlob copy CopyIfPrimitiveOrError CopyInto).
Local Abbreviation spec_program :=
  (spec_program isolate v8_Compile v8_Run GetUnboundScript BindToCurrentContext).
Local Abbreviation spec_programs :=
  (spec_programs isolate v8_Compile v8_Run GetUnboundScript BindToCurrentContext).
Local Abbreviation spec_warmup := (spec_warmup isolate v8_Compile v8_Run).
Local Abbreviation spec_build :=
  (spec_build isolate v8_Compile v8_Run GetUnboundScript BindToCurrentContext).

(** One pass of the loop makes the calls of the specification for one
    program, from the same isolate, and leaves by the exception they
    throw. *)
Lemma embed_script_spec script iso trace :
  c_str script.1 = script.1 ->
  embed_script script (iso, trace)
  = let '(calls, thrown, iso1) := spec_program script iso in
    (match thrown with Some exception => inr exception | None => inl tt end,
     (iso1, trace ++ calls)).
Proof.
  intros Htext.
  unfold IsolateHandle.embed_script, IsolateHandle.spec_program, block_bind, do_Compile, do_Run.
  rewrite Htext.
  destruct (v8_Compile context script.1 (ScriptOriginHolder.ToScriptOrigin script.2) iso)
    as [[compiled | exception] iso1]; [| reflexivity].
  destruct (v8_Run context compiled iso1) as [[exception |] iso2];
    [rewrite <- app_assoc; reflexivity |].
  destruct (v8_Run context_dirty
              (BindToCurrentContext (GetUnboundScript compiled) context_dirty) iso2)
    as [[exception |] iso3]; rewrite <- !app_assoc; reflexivity.
Qed.

Lemma embed_scripts_spec scripts :
  Forall (fun script => c_str script.1 = script.1) scripts ->
  forall iso trace,
    embed_scripts scripts (iso, trace)
    = let '(calls, thrown, iso1) := spec_programs scripts iso in
      (match thrown with Some exception => inr exception | None => inl tt end,
       (iso1, trace ++ calls)).
Proof.
  induction 1 as [| script rest Htext _ IH]; intros iso trace.
  - cbn. unfold block_ret. rewrite app_nil_r. reflexivity.
  - cbn [IsolateHandle.embed_scripts IsolateHandle.spec_programs]. unfold block_bind.
    rewrite (embed_script_spec script iso trace Htext).
    destruct (spec_program script iso) as [[calls [exception |]] iso1]; [reflexivity |].
    rewrite IH. destruct (spec_programs rest iso1) as [[more thrown] iso2].
    rewrite app_assoc. reflexivity.
Qed.

Lemma run_warmup_spec warmup_script iso trace :
  c_str warmup_script = warmup_script ->
  run_warmup warmup_script (iso, trace)
  = let '(calls, thrown, iso1) := spec_warmup warmup_script iso in
    (match thrown with Some exception => inr exception | None => inl tt end,
     (iso1, trace ++ calls)).
Proof.
  intros Htext. unfold IsolateHandle.run_warmup, IsolateHandle.spec_warmup.
  destruct (decide (warmup_script = ""%string)) as [-> | Hne].
  - rewrite bool_decide_eq_false_2 by (cbn; congruence).
    rewrite bool_decide_eq_true_2 by reflexivity.
    unfold block_ret. rewrite app_nil_r. reflexivity.
  - rewrite bool_decide_eq_true_2 by (rewrite length_zero_empty; exact Hne).
    rewrite (bool_decide_eq_false_2 _ Hne), Htext.
    unfold block_bind, do_Compile, do_Run.
    destruct (v8_Compile context_dirty warmup_script
                (ScriptOriginHolder.ToScriptOrigin ScriptOriginHolder.initial) iso)
      as [[compiled | exception] iso1]; [| reflexivity].
    destruct (v8_Run context_dirty compiled iso1) as [[exception |] iso2];
      rewrite <- app_assoc; reflexivity.
Qed.

(** The [try] block makes the calls of the specification's build, and,
    left normally, has the context disposal notified and the default
    context added. *)
Lemma try_block_spec scripts warmup_script iso trace :
  Forall (fun script => c_str script.1 = script.1) scripts ->
  c_str warmup_script = warmup_script ->
  try_block scripts warmup_script (iso, trace)
  = let '(calls, thrown, iso1) := spec_build scripts warmup_script iso in
    match thrown with
    | Some exception => (inr exception, (iso1, trace ++ calls))
    | None =>
        (inl tt, (iso1, trace ++ calls ++ [ContextDisposedNotification; AddContext context]))
    end.
Proof.
  intros Hscripts Hwarmup. unfold IsolateHandle.try_block, IsolateHandle.spec_build, block_bind.
  rewrite (embed_scripts_spec scripts Hscripts).
  destruct (spec_programs scripts iso) as [[calls [exception |]] iso1]; [reflexivity |].
  rewrite (run_warmup_spec _ _ _ Hwarmup).
  destruct (spec_warmup warmup_script iso1) as [[more [exception |]] iso2].
  - rewrite app_assoc. reflexivity.
  - cbn. rewrite <- !app_assoc. reflexivity.
Qed.

(** After marshalling, [CreateSnapshot] is [build_snapshot]. *)
Lemma CreateSnapshot_build script_handles warmup_handle iso scripts :
  marshal_scripts script_handles = Return scripts ->
  CreateSnapshot script_handles warmup_handle iso
  = build_snapshot scripts (marshal_warmup warmup_handle) iso.
Proof.
  intros H. unfold IsolateHandle.CreateSnapshot. rewrite H. cbn [bind].
  destruct (build_snapshot scripts (marshal_warmup warmup_handle) iso). reflexivity.
Qed.

(** What [build_snapshot] returns and calls, in terms of the
    specification's build: a copied exception is thrown in the caller's
    isolate and no blob is made; otherwise the blob is made, and it
    decides the result. *)
Lemma build_snapshot_spec scripts warmup_script iso :
  Forall (fun script => c_str script.1 = script.1) scripts ->
  c_str warmup_script = warmup_script ->
  build_snapshot scripts warmup_script iso
  = let '(calls, thrown, iso1) := spec_build scripts warmup_script iso in
    let exported :=
      if bool_decide (length (v8_CreateBlob iso1) = 0%nat)
      then Throw (js_generic_error "Failure creating snapshot")
      else Return (SnapshotHandle (v8_CreateBlob iso1)) in
    match thrown with
    | Some exception =>
        match CopyIfPrimitiveOrError exception with
        | Some e =>
            (Return (ThrowException (CopyInto e)), [SetDefaultContext context] ++ calls)
        | None => (exported, [SetDefaultContext context] ++ calls ++ [CreateBlob])
        end
    | None =>
        (exported,
         [SetDefaultContext context] ++ calls
         ++ [ContextDisposedNotification; AddContext context; CreateBlob])
    end.
Proof.
  intros Hscripts Hwarmup. unfold IsolateHandle.build_snapshot.
  rewrite (try_block_spec scripts warmup_script iso _ Hscripts Hwarmup).
  destruct (spec_build scripts warmup_script iso) as [[calls [exception |]] iso1].
  - destruct (CopyIfPrimitiveOrError exception) as [e |]; [reflexivity |].
    destruct (bool_decide _); rewrite <- app_assoc; reflexivity.
  - destruct (bool_decide _); rewrite <- !app_assoc; reflexivity.
Qed.

(** [CreateSnapshot] on an array that marshals, in terms of the
    specification's build. *)
Lemma CreateSnapshot_spec script_handles warmup_handle iso scripts :
  marshal_scripts script_handles = Return scripts ->
  CreateSnapshot script_handles warmup_handle iso
  = let '(calls, thrown, iso1) := spec_build scripts (marshal_warmup warmup_handle) iso in
    let exported :=
      if bool_decide (length (v8_CreateBlob iso1) = 0%nat)
      then Throw (js_generic_error "Failure creating snapshot")
      else Return (SnapshotHandle (v8_CreateBlob iso1)) in
    match thrown with
    | Some exception =>
        match CopyIfPrimitiveOrError exception with
        | Some e =>
            (Return (ThrowException (CopyInto e)), [SetDefaultContext context] ++ calls)
        | None => (exported, [SetDefaultContext context] ++ calls ++ [CreateBlob])
        end
    | None =>
        (exported,
         [SetDefaultContext context] ++ calls
         ++ [ContextDisposedNotification; AddContext context; CreateBlob])
    end.
Proof.
  intros Hmarshal. rewrite (CreateSnapshot_build _ _ _ _ Hmarshal).
  apply build_snapshot_spec; [| apply marshal_warmup_text].
  exact (supplied_text _ _ (marshal_scripts_from_order _ _ _ Hmarshal)).
Qed.

(** The specification's build compiles against the default context the
    supplied scripts only. *)
Lemma spec_program_compiles script iso code origin :
  Compile context code origin ∈ (spec_program script iso).1.1 ->
  code = script.1 /\ origin = ScriptOriginHolder.ToScriptOrigin script.2.
Proof.
  unfold IsolateHandle.spec_program.
  destruct (v8_Compile context script.1 (ScriptOriginHolder.ToScriptOrigin script.2) iso)
    as [[compiled | exception] iso1].
  - destruct (v8_Run context compiled iso1) as [[exception |] iso2].
    + cbn. rewrite !elem_of_cons. intros [[= -> ->] | [[=] | H]]; [split; reflexivity |].
      apply elem_of_nil in H. destruct H.
    + destruct (v8_Run context_dirty _ iso2) as [thrown iso3]. cbn.
      rewrite !elem_of_cons. intros [[= -> ->] | [[=] | [[=] | H]]]; [split; reflexivity |].
      apply elem_of_nil in H. destruct H.
  - cbn. rewrite !elem_of_cons. intros [[= -> ->] | H]; [split; reflexivity |].
    apply elem_of_nil in H. destruct H.
Qed.

Lemma spec_programs_compiles scripts : forall iso code origin,
  Compile context code origin ∈ (spec_programs scripts iso).1.1 ->
  exists script,
    script ∈ scripts /\ code = script.1 /\ origin = ScriptOriginHolder.ToScriptOrigin script.2.
Proof.
  induction scripts as [| script rest IH]; intros iso code origin; cbn [IsolateHandle.spec_programs].
  - cbn. intros H. apply elem_of_nil in H. destruct H.
  - pose proof (spec_program_compiles script iso code origin) as Hone.
    destruct (spec_program script iso) as [[calls [exception |]] iso1]; cbn [fst snd] in *.
    + intros H. exists script. split; [apply list_elem_of_here | exact (Hone H)].
    + specialize (IH iso1 code origin).
      destruct (spec_programs rest iso1) as [[more thrown] iso2]; cbn [fst snd] in *.
      rewrite elem_of_app. intros [H | H].
      * exists script. split; [apply list_elem_of_here | exact (Hone H)].
      * destruct (IH H) as (script' & Hin & Heq).
        exists script'. split; [apply list_elem_of_further; exact Hin | exact Heq].
Qed.

Lemma spec_warmup_compiles warmup_script iso code origin :
  Compile context code origin ∉ (spec_warmup warmup_script iso).1.1.
Proof.
  unfold IsolateHandle.spec_warmup. destruct (bool_decide _); [apply not_elem_of_nil |].
  destruct (v8_Compile context_dirty warmup_script _ iso) as [[compiled | exception] iso1].
  - destruct (v8_Run context_dirty compiled iso1) as [thrown iso2]. cbn.
    rewrite !elem_of_cons. intros [[=] | [[=] | H]]. apply elem_of_nil in H. destruct H.
  - cbn. rewrite !elem_of_cons. intros [[=] | H]. apply elem_of_nil in H. destruct H.
Qed.

Lemma spec_build_compiles scripts warmup_script iso code origin :
  Compile context code origin ∈ (spec_build scripts warmup_script iso).1.1 ->
  exists script,
    script ∈ scripts /\ code = script.1 /\ origin = ScriptOriginHolder.ToScriptOrigin script.2.
Proof.
  unfold IsolateHandle.spec_build.
  pose proof (spec_programs_compiles scripts iso code origin) as Hprograms.
  destruct (spec_programs scripts iso) as [[calls [exception |]] iso1]; cbn [fst snd] in *;
    [exact Hprograms |].
  pose proof (spec_warmup_compiles warmup_script iso1 code origin) as Hwarmup.
  destruct (spec_warmup warmup_script iso1) as [[more thrown] iso2]; cbn [fst snd] in *.
  rewrite elem_of_app. intros [H | H]; [exact (Hprograms H) | destruct (Hwarmup H)].
Qed.

(** C5.  Once the array of scripts is marshalled, the scripts are those
    its elements supply, in the order of the array, and the calls
    [CreateSnapshot] makes into the snapshot creator are
    [SetDefaultContext] followed by the calls of the specification's
    build, made from the same isolate: for each script in submission
    order a compile and a run against the default context and then a run,
    against the dirty context, of the unbound form of the script that
    compile returned; then, for a warmup script that is not empty, a
    compile and a run against the dirty context; all this up to the first
    call that throws.  When nothing throws, [ContextDisposedNotification],
    [AddContext] of the default context and [CreateBlob] follow.  A
    compile against the default context is always that of a supplied
    script, never of the warmup script.  Strings are taken as the code
    takes them, up to their first NUL. *)
Theorem CreateSnapshot_calls script_handles warmup_handle iso scripts :
  marshal_scripts script_handles = Return scripts ->
  let warmup_script :=
    match warmup_handle with Some warmup => c_str warmup | None => ""%string end in
  let calls := (spec_build scripts warmup_script iso).1.1 in
  let thrown := (spec_build scripts warmup_script iso).1.2 in
  Forall2 supplies script_handles scripts /\
  (CreateSnapshot script_handles warmup_handle iso).2
  = [SetDefaultContext context] ++ calls
    ++ match thrown with
       | None => [ContextDisposedNotification; AddContext context; CreateBlob]
       | Some exception =>
           match CopyIfPrimitiveOrError exception with Some _ => [] | None => [CreateBlob] end
       end /\
  forall code origin,
    Compile context code origin ∈ (CreateSnapshot script_handles warmup_handle iso).2 ->
    exists script,
      script ∈ scripts /\ code = script.1 /\ origin = ScriptOriginHolder.ToScriptOrigin script.2.
Proof.
  intros Hmarshal. cbn zeta.
  change (match warmup_handle with Some warmup => c_str warmup | None => ""%string end)
    with (marshal_warmup warmup_handle).
  split; [exact (marshal_scripts_from_order _ _ _ Hmarshal) |].
  rewrite (CreateSnapshot_spec _ _ _ _ Hmarshal).
  pose proof (spec_build_compiles scripts (marshal_warmup warmup_handle) iso) as Hcompiles.
  destruct (spec_build scripts (marshal_warmup warmup_handle) iso) as [[calls thrown] iso1].
  cbn [fst snd] in *.
  destruct thrown as [exception |]; [destruct (CopyIfPrimitiveOrError exception) as [e |] |];
    try destruct (bool_decide _); cbn [snd].
  all: split; [rewrite ?app_nil_r; reflexivity |].
  all: intros code origin H; apply Hcompiles; revert H.
  all: rewrite ?elem_of_app, ?elem_of_cons, ?elem_of_nil; intuition congruence.
Qed.

End Snapshot.

(** A snapshot creator whose compiles return fresh scripts and whose runs
    return; one script, and a warmup script with a NUL in it. *)
Lemma CreateSnapshot_calls_witness :
  let v8_Compile := fun (_ : scope) (_ : string) (_ : ScriptOriginHolder.ScriptOrigin) (n : nat) =>
                      (inl (Pos.of_succ_nat n) : Script + Value, S n) in
  let v8_Run := fun (_ : scope) (_ : Script) (n : nat) => (None : option Value, n) in
  let unbound := fun s : Script => s in
  let bound := fun (u : UnboundScript) (_ : scope) => u in
  let blob := fun _ : nat => [Byte.x01; Byte.x02] in
  let script_handles :=
    [(array_index 0, Handle (ScriptObject {[ "code" := data_property (String "a = 1") ]}))] in
  let scripts := [("a = 1"%string, ScriptOriginHolder.initial)] in
  let warmup := ("w" +:+ String.String Ascii.zero "x")%string in
  let origin := ("<isolated-vm>"%string, 0, 0) in
  marshal_scripts script_handles = Return scripts /\
  (CreateSnapshot nat v8_Compile v8_Run unbound bound blob Value Some id
     script_handles (Some warmup) 0%nat).2
  = [SetDefaultContext context;
     Compile context "a = 1" origin; Run context 1%positive; Run context_dirty 1%positive;
     Compile context_dirty "w" origin; Run context_dirty 2%positive;
     ContextDisposedNotification; AddContext context; CreateBlob].
Proof.
  intros v8_Compile v8_Run unbound bound blob script_handles scripts warmup origin.
  assert (Hmarshal : marshal_scripts script_handles = Return scripts)
    by (vm_compute; reflexivity).
  split; [exact Hmarshal |].
  exact (proj1 (proj2 (CreateSnapshot_calls v8_Compile v8_Run unbound bound blob Some id
                         script_handles (Some warmup) 0%nat scripts Hmarshal))).
Defined.

(** C6 at [createSnapshot] of the one script [throw {}].  The run against
    the default context throws an object, which is neither a primitive
    nor an error, so [CopyIfPrimitiveOrError] returns null; [error] stays
    null, the dirty context is never run, no context is added, the blob is
    made all the same, and the caller is handed a snapshot instead of an
    error carrying a copy of the thrown value. *)
Theorem CreateSnapshot_drops_uncopied_exception :
  let v8_Compile := fun (_ : scope) (_ : string) (_ : ScriptOriginHolder.ScriptOrigin) (n : nat) =>
                      (inl (Pos.of_succ_nat n) : Script + Value, S n) in
  let v8_Run := fun (_ : scope) (_ : Script) (n : nat) => (Some (Object OrdinaryObject), n) in
  let unbound := fun s : Script => s in
  let bound := fun (u : UnboundScript) (_ : scope) => u in
  let blob := fun _ : nat => [Byte.x01; Byte.x02] in
  let CopyIfPrimitiveOrError :=
    fun v : Value => match v with Object _ => None | _ => Some v end in
  let script_handles :=
    [(array_index 0, Handle (ScriptObject {[ "code" := data_property (String "throw {}") ]}))] in
  CreateSnapshot nat v8_Compile v8_Run unbound bound blob Value CopyIfPrimitiveOrError id
    script_handles None 0%nat
  = (Return (SnapshotHandle [Byte.x01; Byte.x02]),
     [SetDefaultContext context;
      Compile context "throw {}" ("<isolated-vm>"%string, 0, 0); Run context 1%positive;
      CreateBlob]).
Proof. vm_compute. reflexivity. Qed.

End IsolateHandleFacts.

(** * Further properties *)

(** ** The allocator in use *)

Module LimitedAllocatorUse.
Import LimitedAllocator.

Lemma size_t_add_sub x y : is_size_t x -> size_t (size_t (x + y) - y) = x.
Proof.
  intros Hx. unfold size_t. rewrite Zminus_mod_idemp_l.
  replace (x + y - y) with x by lia. apply Z.mod_small. exact Hx.
Qed.

(** X1.  A block that is allocated and then freed leaves the tracked bytes
    as they were: whenever [Check] admits a request, [Free] of the same
    length brings [my_heap] back to its value before the request, also
    when the additions wrapped around; limit and estimate are not touched
    by [Free]. *)
Theorem Allocate_Free_round_trip total_heap_size libc_result length a :
  is_size_t (my_heap a) ->
  (Check total_heap_size length a).1 = true ->
  let a1 := (Allocate total_heap_size libc_result length a).2 in
  my_heap (Free length a1) = my_heap a /\
  limit (Free length a1) = limit a /\
  v8_heap (Free length a1) = v8_heap a1.
Proof.
  intros Hmy Hok a1. subst a1. rewrite LimitedAllocatorFacts.Allocate_Check. cbn [fst snd].
  pose proof (LimitedAllocatorFacts.Check_frame total_heap_size length a) as [Hlim _].
  split; [| split; [exact Hlim | reflexivity]].
  revert Hok. unfold Check, Free.
  repeat (match goal with
          | |- context [?x >? ?y] => destruct (x >? y)
          end; cbn); intros Hok; try discriminate Hok;
    apply size_t_add_sub; exact Hmy.
Qed.

Lemma Allocate_Free_round_trip_witness :
  let a := New (8 * 1024 * 1024) in
  let a1 := (Allocate (5 * 1024 * 1024) (address 1) (1024 * 1024) a).2 in
  (is_size_t (my_heap a) /\ (Check (5 * 1024 * 1024) (1024 * 1024) a).1 = true) /\
  my_heap a1 = 1024 * 1024 /\
  my_heap (Free (1024 * 1024) a1) = my_heap a.
Proof.
  intros a a1.
  assert (H1 : is_size_t (my_heap a)) by (unfold is_size_t; rewrite SIZE_MODULUS_eq; cbn; lia).
  assert (H2 : (Check (5 * 1024 * 1024) (1024 * 1024) a).1 = true) by reflexivity.
  split; [split; assumption |]. split; [reflexivity |].
  exact (proj1 (Allocate_Free_round_trip (5 * 1024 * 1024) (address 1) (1024 * 1024) a H1 H2)).
Defined.

(** X2.  What [GetAllocatedSize] reports for an allocator in use never
    falls short of the bytes of the blocks that are live, and never
    exceeds the limit. *)
Theorem GetAllocatedSize_bounds L B a live :
  is_size_t L ->
  reachable L B a live ->
  total_length live <= GetAllocatedSize a <= L.
Proof.
  intros HL Hreach.
  destruct (LimitedAllocatorFacts.reachable_invariant L B a live HL Hreach)
    as (_ & _ & Hm & _ & Hsum).
  unfold GetAllocatedSize. lia.
Qed.

Lemma reachable_example :
  let L := 8 * 1024 * 1024 in
  let B := 16 * 1024 * 1024 in
  reachable L B (Allocate (5 * 1024 * 1024) (address 1) (1024 * 1024) (New L)).2 [1024 * 1024].
Proof.
  intros L B.
  apply (reachable_Allocate L B (New L) [] (5 * 1024 * 1024) (address 1) (1024 * 1024)).
  - apply reachable_New. subst B. lia.
  - subst B. lia.
  - lia.
  - rewrite SIZE_MODULUS_eq. subst L B. lia.
Defined.

Lemma GetAllocatedSize_bounds_witness :
  let L := 8 * 1024 * 1024 in
  let a := (Allocate (5 * 1024 * 1024) (address 1) (1024 * 1024) (New L)).2 in
  is_size_t L /\
  total_length [1024 * 1024] <= GetAllocatedSize a <= L.
Proof.
  intros L a.
  assert (HL : is_size_t L) by (unfold is_size_t; rewrite SIZE_MODULUS_eq; subst L; lia).
  split; [exact HL |].
  exact (GetAllocatedSize_bounds L (16 * 1024 * 1024) a [1024 * 1024] HL reachable_example).
Defined.

Lemma reachable_bound L B a live : reachable L B a live -> 1024 * 1024 * 4 <= B.
Proof. induction 1; assumption. Qed.

(** [Check] keeps the tracked bytes below the watermark. *)
Lemma Check_watermark L B total_heap_size length a :
  1024 * 1024 * 4 <= B ->
  limit a = L -> 0 <= v8_heap a <= B -> 0 <= my_heap a <= L ->
  0 <= total_heap_size <= B -> 0 <= length -> B + L + length < SIZE_MODULUS ->
  my_heap a <= next_check a < SIZE_MODULUS ->
  my_heap (Check total_heap_size length a).2 <= next_check (Check total_heap_size length a).2
    < SIZE_MODULUS.
Proof.
  intros HB Hlim Hv Hm Hh Hl Hfit Hnc.
  pose proof (LimitedAllocatorFacts.projected_exact a length
                ltac:(lia) ltac:(lia) Hl ltac:(lia)) as Hp.
  pose proof (LimitedAllocatorFacts.projected_exact (set_v8_heap total_heap_size a) length
                ltac:(cbn; lia) ltac:(cbn; lia) Hl ltac:(cbn; lia)) as Hp'.
  rewrite SIZE_MODULUS_eq in *.
  unfold Check, projected in *. cbn in *. rewrite ?Hp, ?Hp'.
  repeat (match goal with
          | |- context [?x >? ?y] => destruct (Z.gtb_spec x y)
          end; cbn; rewrite ?Hp, ?Hp');
    rewrite ?size_t_id by (unfold is_size_t; rewrite SIZE_MODULUS_eq; lia); lia.
Qed.

Lemma reachable_watermark L B a live :
  is_size_t L -> reachable L B a live -> my_heap a <= next_check a < SIZE_MODULUS.
Proof.
  intros HL Hreach. induction Hreach as [HB | a live h p len Hreach IH Hh Hl Hfit
                                           | a live h p len Hreach IH Hh Hl Hfit
                                           | a live1 len live2 Hreach IH].
  - cbn. rewrite SIZE_MODULUS_eq. lia.
  - rewrite LimitedAllocatorFacts.Allocate_Check. cbn [snd].
    destruct (LimitedAllocatorFacts.reachable_invariant L B a live HL Hreach)
      as (Hlim & Hv & Hm & _ & _).
    apply (Check_watermark L B); try assumption.
    exact (reachable_bound _ _ _ _ Hreach).
  - rewrite LimitedAllocatorFacts.AllocateUninitialized_Allocate,
      LimitedAllocatorFacts.Allocate_Check. cbn [snd].
    destruct (LimitedAllocatorFacts.reachable_invariant L B a live HL Hreach)
      as (Hlim & Hv & Hm & _ & _).
    apply (Check_watermark L B); try assumption.
    exact (reachable_bound _ _ _ _ Hreach).
  - destruct (LimitedAllocatorFacts.reachable_invariant L B a _ HL Hreach)
      as (Hlim & Hv & Hm & Hpos & Hsum).
    apply Forall_app in Hpos as [Hpos1 Hpos2].
    apply Forall_cons in Hpos2 as [Hlen Hpos2].
    rewrite LimitedAllocatorFacts.total_length_app in Hsum.
    change (total_length (len :: live2)) with (len + total_length live2) in Hsum.
    pose proof (LimitedAllocatorFacts.total_length_nonneg _ Hpos1).
    pose proof (LimitedAllocatorFacts.total_length_nonneg _ Hpos2).
    unfold Free. cbn.
    rewrite (size_t_id (my_heap a - len)) by (unfold is_size_t in *; lia).
    rewrite (size_t_id (next_check a - len)) by (unfold is_size_t in *; lia).
    lia.
Qed.

(** X3.  In an allocator in use the tracked bytes never exceed the
    watermark [next_check], so that freeing a live block subtracts its
    length from both counters without wrapping around. *)
Theorem Free_is_exact L B a live1 length live2 :
  is_size_t L ->
  reachable L B a (live1 ++ length :: live2) ->
  my_heap a <= next_check a /\
  0 <= my_heap a - length /\
  my_heap (Free length a) = my_heap a - length /\
  next_check (Free length a) = next_check a - length.
Proof.
  intros HL Hreach.
  pose proof (reachable_watermark L B a _ HL Hreach) as Hw.
  destruct (LimitedAllocatorFacts.reachable_invariant L B a _ HL Hreach)
    as (Hlim & Hv & Hm & Hpos & Hsum).
  apply Forall_app in Hpos as [Hpos1 Hpos2].
  apply Forall_cons in Hpos2 as [Hlen Hpos2].
  rewrite LimitedAllocatorFacts.total_length_app in Hsum.
  change (total_length (length :: live2)) with (length + total_length live2) in Hsum.
  pose proof (LimitedAllocatorFacts.total_length_nonneg _ Hpos1).
  pose proof (LimitedAllocatorFacts.total_length_nonneg _ Hpos2).
  unfold Free. cbn.
  rewrite (size_t_id (my_heap a - length)) by (unfold is_size_t in *; lia).
  rewrite (size_t_id (next_check a - length)) by (unfold is_size_t in *; lia).
  lia.
Qed.

Lemma Free_is_exact_witness :
  let L := 8 * 1024 * 1024 in
  let a := (Allocate (5 * 1024 * 1024) (address 1) (1024 * 1024) (New L)).2 in
  is_size_t L /\
  my_heap a <= next_check a /\
  my_heap (Free (1024 * 1024) a) = 0 /\
  next_check (Free (1024 * 1024) a) = 6 * 1024 * 1024.
Proof.
  intros L a.
  assert (HL : is_size_t L) by (unfold is_size_t; rewrite SIZE_MODULUS_eq; subst L; lia).
  split; [exact HL |].
  destruct (Free_is_exact L (16 * 1024 * 1024) a [] (1024 * 1024) [] HL reachable_example)
    as (H1 & _ & H3 & H4).
  split; [exact H1 |]. split; [exact H3 | exact H4].
Defined.

(** X4.  For a first request below [2^64 - 4 MiB], so that the sum on
    line 75 does not wrap around, and an engine heap that with the request
    fits [size_t], the estimate of 4 MiB the constructor starts with does
    not decide the request: the first call of [Check] on a new allocator
    queries the engine, keeps what it reports as the estimate, and admits
    the request exactly when the reported heap plus the request is within
    the limit.  A larger first request wraps the sum and can pass without
    a query. *)
Theorem first_allocation_queries_engine L total_heap_size length :
  0 <= total_heap_size -> 0 <= length ->
  1024 * 1024 * 4 + length < SIZE_MODULUS ->
  total_heap_size + length < SIZE_MODULUS ->
  v8_heap (Check total_heap_size length (New L)).2 = total_heap_size /\
  ((Check total_heap_size length (New L)).1 = true <-> total_heap_size + length <= L).
Proof.
  intros Hh Hl Hfit Hfit'.
  pose proof (LimitedAllocatorFacts.projected_exact (New L) length
                ltac:(cbn; lia) ltac:(cbn; lia) Hl ltac:(cbn; lia)) as Hp.
  pose proof (LimitedAllocatorFacts.projected_exact (set_v8_heap total_heap_size (New L)) length
                ltac:(cbn; lia) ltac:(cbn; lia) Hl ltac:(cbn; lia)) as Hp'.
  unfold Check, projected in *. cbn in *. rewrite ?Hp, ?Hp'.
  repeat (match goal with
          | |- context [?x >? ?y] => destruct (Z.gtb_spec x y)
          end; cbn; rewrite ?Hp, ?Hp');
    try lia; (split; [reflexivity |]); split; (lia || discriminate || reflexivity).
Qed.

Lemma first_allocation_queries_engine_witness :
  let L := 8 * 1024 * 1024 in
  (0 <= 9 * 1024 * 1024 /\ 0 <= 16 /\ 1024 * 1024 * 4 + 16 < SIZE_MODULUS /\
   9 * 1024 * 1024 + 16 < SIZE_MODULUS) /\
  v8_heap (Check (9 * 1024 * 1024) 16 (New L)).2 = 9 * 1024 * 1024 /\
  ((Check (9 * 1024 * 1024) 16 (New L)).1 = true <-> 9 * 1024 * 1024 + 16 <= L).
Proof.
  intros L.
  assert (H1 : 0 <= 9 * 1024 * 1024) by lia.
  assert (H2 : 0 <= 16) by lia.
  assert (H3 : 1024 * 1024 * 4 + 16 < SIZE_MODULUS) by (rewrite SIZE_MODULUS_eq; lia).
  assert (H4 : 9 * 1024 * 1024 + 16 < SIZE_MODULUS) by (rewrite SIZE_MODULUS_eq; lia).
  split; [repeat split; assumption |].
  exact (first_allocation_queries_engine L (9 * 1024 * 1024) 16 H1 H2 H3 H4).
Defined.

(** X5.  A request that [Check] refuses is not charged: the tracked bytes,
    the watermark and the limit are what they were (only the estimate may
    have been refreshed), and both [Allocate] and [AllocateUninitialized]
    return the null pointer whatever [calloc] or [malloc] would have
    given. *)
Theorem refused_request_is_not_charged total_heap_size length a :
  (Check total_heap_size length a).1 = false ->
  my_heap (Check total_heap_size length a).2 = my_heap a /\
  next_check (Check total_heap_size length a).2 = next_check a /\
  limit (Check total_heap_size length a).2 = limit a /\
  forall libc_result,
    Allocate total_heap_size libc_result length a
    = (nullptr, (Check total_heap_size length a).2) /\
    AllocateUninitialized total_heap_size libc_result length a
    = (nullptr, (Check total_heap_size length a).2).
Proof.
  intros Hrefused.
  assert (Hframe : my_heap (Check total_heap_size length a).2 = my_heap a /\
                   next_check (Check total_heap_size length a).2 = next_check a /\
                   limit (Check total_heap_size length a).2 = limit a).
  { revert Hrefused. unfold Check, projected. cbn.
    destruct (_ >? next_check a); cbn.
    - destruct (_ >? limit a) eqn:E; cbn; [| rewrite E]; intros Hrefused;
        try discriminate Hrefused; repeat split; reflexivity.
    - destruct (_ >? limit a); cbn; intros Hrefused;
        try discriminate Hrefused; repeat split; reflexivity. }
  destruct Hframe as (H1 & H2 & H3). repeat split; try assumption.
  - rewrite LimitedAllocatorFacts.Allocate_Check, Hrefused. reflexivity.
  - rewrite LimitedAllocatorFacts.AllocateUninitialized_Allocate,
      LimitedAllocatorFacts.Allocate_Check, Hrefused. reflexivity.
Qed.

Lemma refused_request_is_not_charged_witness :
  let a := New (8 * 1024 * 1024) in
  (Check (9 * 1024 * 1024) 16 a).1 = false /\
  my_heap (Check (9 * 1024 * 1024) 16 a).2 = 0 /\
  (Allocate (9 * 1024 * 1024) (address 1) 16 a).1 = nullptr.
Proof.
  intros a.
  assert (H : (Check (9 * 1024 * 1024) 16 a).1 = false) by reflexivity.
  destruct (refused_request_is_not_charged (9 * 1024 * 1024) 16 a H) as (H1 & _ & _ & H4).
  split; [exact H |]. split; [exact H1 |].
  rewrite (proj1 (H4 (address 1))). reflexivity.
Defined.

(** X6.  After a request that made [Check] query the engine and was
    admitted, the watermark lies one MiB above the projected total: any
    further request of up to one MiB is decided without a query, from the
    cached estimate alone, whatever the engine would report. *)
Theorem watermark_margin total_heap_size length a length2 :
  0 <= total_heap_size -> 0 <= my_heap a -> 0 <= length ->
  total_heap_size + my_heap a + length < SIZE_MODULUS ->
  limit a + 1024 * 1024 < SIZE_MODULUS ->
  next_check a < projected a length ->
  (Check total_heap_size length a).1 = true ->
  0 <= length2 <= 1024 * 1024 ->
  let a1 := (Check total_heap_size length a).2 in
  v8_heap a1 = total_heap_size /\
  forall reported reported',
    Check reported length2 a1 = Check reported' length2 a1 /\
    v8_heap (Check reported length2 a1).2 = total_heap_size.
Proof.
  intros Hh Hm Hl Hfit HL Hquery Hok Hl2 a1. subst a1.
  pose proof (LimitedAllocatorFacts.projected_exact (set_v8_heap total_heap_size a) length
                ltac:(cbn; lia) ltac:(cbn; lia) Hl ltac:(cbn; lia)) as Hp'.
  unfold Check, projected in *. cbn in *.
  set (X := size_t (size_t (v8_heap a + my_heap a) + length)) in *.
  destruct (Z.gtb_spec X (next_check a)) as [_ | Hno]; [| lia].
  rewrite Hp' in *.
  destruct (Z.gtb_spec (total_heap_size + my_heap a + length) (limit a)) as [Hgt | Hle];
    [discriminate Hok |].
  cbn in *. rewrite Hp' in *.
  destruct (Z.gtb_spec (total_heap_size + my_heap a + length) (limit a)) as [Hgt | _]; [lia |].
  cbn. split; [reflexivity |].
  intros reported reported'.
  rewrite (size_t_id (my_heap a + length)) by (unfold is_size_t; lia).
  rewrite (size_t_id (total_heap_size + my_heap a + length + 1024 * 1024))
    by (unfold is_size_t; lia).
  rewrite (size_t_id (total_heap_size + (my_heap a + length)))
    by (unfold is_size_t; lia).
  rewrite (size_t_id (total_heap_size + (my_heap a + length) + length2))
    by (unfold is_size_t; lia).
  destruct (Z.gtb_spec (total_heap_size + (my_heap a + length) + length2)
              (total_heap_size + my_heap a + length + 1024 * 1024)) as [Hgt | _]; [lia |].
  split; [reflexivity |].
  cbn. destruct (_ >? limit a); reflexivity.
Qed.

Lemma watermark_margin_witness :
  let a := New (8 * 1024 * 1024) in
  let a1 := (Check (5 * 1024 * 1024) (1024 * 1024) a).2 in
  (next_check a < projected a (1024 * 1024) /\
   (Check (5 * 1024 * 1024) (1024 * 1024) a).1 = true) /\
  Check (7 * 1024 * 1024) (1024 * 1024) a1 = Check 0 (1024 * 1024) a1.
Proof.
  intros a a1.
  assert (H1 : next_check a < projected a (1024 * 1024)) by (vm_compute; reflexivity).
  assert (H2 : (Check (5 * 1024 * 1024) (1024 * 1024) a).1 = true) by reflexivity.
  split; [split; assumption |].
  refine (proj1 (proj2 (watermark_margin (5 * 1024 * 1024) (1024 * 1024) a (1024 * 1024)
                          _ _ _ _ _ H1 H2 _) (7 * 1024 * 1024) 0)).
  all: try (rewrite SIZE_MODULUS_eq); cbn; lia.
Defined.

End LimitedAllocatorUse.

(** ** Script origins *)

Module ScriptOriginHolderFacts.
Import ScriptOriginHolder.

Lemma Int32Value_range d z : Int32Value d = Some z -> - 2 ^ 31 <= z < 2 ^ 31.
Proof.
  unfold Int32Value. destruct d as [[] | | | s m e]; try discriminate.
  - intros [= <-]. lia.
  - destruct (if 0 <=? e then _ else _) as [magnitude |]; [| discriminate].
    destruct (_ && _) eqn:E; [| discriminate].
    apply andb_true_iff in E as [H1 H2].
    apply Z.leb_le in H1. apply Z.ltb_lt in H2.
    intros [= <-]. lia.
Qed.

Lemma parse_offset_outcome name v current :
  - 2 ^ 31 <= current < 2 ^ 31 ->
  (exists z, parse_offset name v current = Return z /\ - 2 ^ 31 <= z < 2 ^ 31) \/
  (exists message, parse_offset name v current = Throw (js_type_error message)).
Proof.
  intros Hcurrent. unfold parse_offset. destruct v; cbn; eauto.
  destruct (Int32Value d) as [z |] eqn:E; eauto.
  left. exists z. split; [reflexivity | exact (Int32Value_range d z E)].
Qed.

Lemma parse_filename_outcome v current :
  (exists name,
     parse_filename v current = Return name /\
     (v = Undefined /\ name = current \/ exists s, v = String s /\ name = c_str s)) \/
  (exists message, parse_filename v current = Throw (js_type_error message)).
Proof.
  unfold parse_filename. destruct v; cbn; eauto 10.
Qed.

(** The three ways the constructor ends. *)
Lemma New_cases maybe_options :
  (exists h,
     New maybe_options = Return h /\
     - 2 ^ 31 <= columnOffset h < 2 ^ 31 /\
     - 2 ^ 31 <= lineOffset h < 2 ^ 31 /\
     (filename h = "<isolated-vm>"%string \/
      exists options s, maybe_options = Some options /\
                        Get options "filename" = Handle (String s) /\
                        filename h = c_str s)) \/
  (exists message, New maybe_options = Throw (js_type_error message)) \/
  (exists options key pending,
     maybe_options = Some options /\
     key ∈ ["filename"; "columnOffset"; "lineOffset"]%string /\
     Get options key = Empty pending /\
     New maybe_options = Throw (js_runtime_error pending)).
Proof.
  destruct maybe_options as [options |]; cbn [New].
  - assert (Hinit : - 2 ^ 31 <= 0 < 2 ^ 31) by lia.
    destruct (Get options "filename") as [vf | pending] eqn:Hf; cbn [Unmaybe bind].
    2: { right. right. exists options, "filename"%string, pending.
         split; [reflexivity |]. split; [apply list_elem_of_here | split; [exact Hf | reflexivity]]. }
    destruct (parse_filename_outcome vf (filename initial)) as [(name & -> & Hname) | (m & ->)];
      cbn [bind]; [| right; left; eauto].
    destruct (Get options "columnOffset") as [vc | pending] eqn:Hc; cbn [Unmaybe bind].
    2: { right. right. exists options, "columnOffset"%string, pending.
         split; [reflexivity |].
         split; [apply list_elem_of_further, list_elem_of_here | split; [exact Hc | reflexivity]]. }
    destruct (parse_offset_outcome "columnOffset" vc (columnOffset initial) Hinit)
      as [(c & -> & Hcr) | (m & ->)]; cbn [bind]; [| right; left; eauto].
    destruct (Get options "lineOffset") as [vl | pending] eqn:Hl; cbn [Unmaybe bind].
    2: { right. right. exists options, "lineOffset"%string, pending.
         split; [reflexivity |].
         split; [do 2 apply list_elem_of_further; apply list_elem_of_here | split; [exact Hl | reflexivity]]. }
    destruct (parse_offset_outcome "lineOffset" vl (lineOffset initial) Hinit)
      as [(l & -> & Hlr) | (m & ->)]; cbn [bind]; [| right; left; eauto].
    left. eexists. split; [reflexivity |]. cbn [columnOffset lineOffset filename].
    split; [exact Hcr |]. split; [exact Hlr |].
    destruct Hname as [[_ ->] | (s & -> & ->)]; [left; reflexivity |].
    right. exists options, s. repeat split. exact Hf.
  - left. exists initial. cbn. repeat split; try lia. left. reflexivity.
Qed.

(** X7.  The constructor of [ScriptOriginHolder] ends in one of three
    ways.  It yields an origin whose offsets are 32-bit integers and whose
    file name is the default, or the [filename] string of the options up
    to its first NUL; or it throws a type error; or reading one of
    [filename], [columnOffset] and [lineOffset] off the options failed,
    and it throws [js_runtime_error] with what that read left pending. *)
Theorem ScriptOriginHolder_outcome maybe_options :
  (exists h,
     New maybe_options = Return h /\
     - 2 ^ 31 <= columnOffset h < 2 ^ 31 /\
     - 2 ^ 31 <= lineOffset h < 2 ^ 31 /\
     (filename h = "<isolated-vm>"%string \/
      exists options s, maybe_options = Some options /\
                        Get options "filename" = Handle (String s) /\
                        filename h = c_str s)) \/
  (exists message, New maybe_options = Throw (js_type_error message)) \/
  (exists options key pending,
     maybe_options = Some options /\
     key ∈ ["filename"; "columnOffset"; "lineOffset"]%string /\
     Get options key = Empty pending /\
     New maybe_options = Throw (js_runtime_error pending)).
Proof. exact (New_cases maybe_options). Qed.

(** X8.  Options that define none of [filename], [columnOffset] and
    [lineOffset], the empty object among them, give the same origin as no
    options at all: the name [<isolated-vm>] and both offsets zero. *)
Theorem ScriptOriginHolder_defaults options :
  Get options "filename" = Handle Undefined ->
  Get options "columnOffset" = Handle Undefined ->
  Get options "lineOffset" = Handle Undefined ->
  New (Some options) = New None /\
  (h <- New (Some options) ;; Return (ToScriptOrigin h))%result
  = Return ("<isolated-vm>"%string, 0, 0).
Proof.
  intros Hf Hc Hl. unfold New, parse_offset. rewrite Hf, Hc, Hl. cbn. split; reflexivity.
Qed.

Lemma ScriptOriginHolder_defaults_witness :
  let options : gmap string property := {[ "code" := data_property (String "1") ]} in
  (Get options "filename" = Handle Undefined /\
   Get options "columnOffset" = Handle Undefined /\
   Get options "lineOffset" = Handle Undefined) /\
  New (Some options) = New None.
Proof.
  intros options.
  assert (H1 : Get options "filename" = Handle Undefined) by (vm_compute; reflexivity).
  assert (H2 : Get options "columnOffset" = Handle Undefined) by (vm_compute; reflexivity).
  assert (H3 : Get options "lineOffset" = Handle Undefined) by (vm_compute; reflexivity).
  split; [repeat split; assumption |].
  exact (proj1 (ScriptOriginHolder_defaults options H1 H2 H3)).
Defined.

(** X9.  The options are checked in the order [filename], [columnOffset],
    [lineOffset], and the first bad one decides the error: a [filename]
    that is defined and not a string is refused whatever the offsets are,
    and with a good [filename] a [columnOffset] that is defined and not a
    32-bit integer is refused whatever [lineOffset] is. *)
Theorem ScriptOriginHolder_first_error options :
  (forall name,
     Get options "filename" = Handle name ->
     name <> Undefined ->
     (forall s, name <> String s) ->
     New (Some options) = Throw (js_type_error "`filename` must be a string")) /\
  (forall column,
     (Get options "filename" = Handle Undefined \/
      exists s, Get options "filename" = Handle (String s)) ->
     Get options "columnOffset" = Handle column ->
     column <> Undefined ->
     (forall d z, column = Number d -> Int32Value d <> Some z) ->
     New (Some options) = Throw (js_type_error "`columnOffset` must be an integer")).
Proof.
  split.
  - intros name Hget Hdef Hnot. unfold New. rewrite Hget. cbn [Unmaybe bind].
    destruct name; cbn; try reflexivity; [congruence |].
    exfalso. exact (Hnot s eq_refl).
  - intros column Hf Hc Hdef Hnot. unfold New. rewrite Hc.
    assert (Hcol : parse_offset "columnOffset" column (columnOffset initial)
                   = Throw (js_type_error "`columnOffset` must be an integer")).
    { unfold parse_offset. destruct column; cbn; try reflexivity; [congruence |].
      destruct (Int32Value d) as [z |] eqn:E; [| reflexivity].
      exfalso. exact (Hnot d z eq_refl E). }
    cbn [Unmaybe bind]. rewrite Hcol.
    destruct Hf as [-> | [s ->]]; reflexivity.
Qed.

Lemma ScriptOriginHolder_first_error_witness :
  let options : gmap string property :=
    {[ "filename" := data_property (Number (S754_zero false));
       "columnOffset" := data_property (String "x") ]} in
  (Get options "filename" = Handle (Number (S754_zero false)) /\
   Number (S754_zero false) <> Undefined /\
   forall s, Number (S754_zero false) <> String s) /\
  New (Some options) = Throw (js_type_error "`filename` must be a string").
Proof.
  intros options.
  assert (Hget : Get options "filename" = Handle (Number (S754_zero false)))
    by (vm_compute; reflexivity).
  assert (H1 : Number (S754_zero false) <> Undefined) by discriminate.
  assert (H2 : forall s, Number (S754_zero false) <> String s) by (intros s; discriminate).
  split; [repeat split; assumption |].
  exact (proj1 (ScriptOriginHolder_first_error options) _ Hget H1 H2).
Defined.

End ScriptOriginHolderFacts.

(** ** What [IsolateHandle::New] builds *)

Module IsolateCreation.
Import IsolateHandle.

Lemma double_to_size_t_range d n :
  double_to_size_t d = Some n -> 0 <= n < SIZE_MODULUS /\ truncate d = Some n.
Proof.
  unfold double_to_size_t. destruct (truncate d) as [z |]; [| discriminate].
  destruct (_ && _) eqn:E; [| discriminate].
  apply andb_true_iff in E as [H1 H2].
  apply Z.leb_le in H1. apply Z.ltb_lt in H2.
  intros [= <-]. split; [lia | reflexivity].
Qed.

Lemma parse_memory_limit_Return v memory_limit :
  parse_memory_limit v = Return memory_limit ->
  8 <= memory_limit < SIZE_MODULUS /\
  (v = Undefined /\ memory_limit = 128 \/
   exists d, v = Number d /\ truncate d = Some memory_limit).
Proof.
  unfold parse_memory_limit. destruct v; cbn; try discriminate.
  - intros [= <-]. rewrite SIZE_MODULUS_eq. split; [lia | left; split; reflexivity].
  - destruct (double_to_size_t d) as [n |] eqn:E; [| discriminate].
    destruct (double_to_size_t_range d n E) as [Hr Ht].
    destruct (Z.ltb_spec n 8); [discriminate |].
    intros [= <-]. split; [lia | right; exists d; split; [reflexivity | exact Ht]].
Qed.

Lemma parse_snapshot_Return v blob :
  parse_snapshot v = Return blob ->
  forall bytes, blob = Some bytes <-> v = Object (ExternalCopyHandle (ExternalCopyArrayBuffer bytes)).
Proof.
  unfold parse_snapshot. destruct v as [| | | | | [| [data | tag]]]; cbn; try discriminate.
  - intros [= <-] bytes. split; discriminate.
  - intros [= <-] bytes. split; intros [= ->]; reflexivity.
Qed.

(** What [New] returns is built from what the three parsers return. *)
Lemma New_Return_parsed options made :
  New (Some options) = Return made ->
  exists limit snapshot_handle inspector_value blob,
    Get options "memoryLimit" = Handle limit /\
    parse_memory_limit limit = Return (memory_limit made) /\
    Get options "snapshot" = Handle snapshot_handle /\
    parse_snapshot snapshot_handle = Return blob /\
    Get options "inspector" = Handle inspector_value /\
    made = build (memory_limit made) blob (IsTrue inspector_value).
Proof.
  unfold New.
  destruct (Get options "memoryLimit") as [limit | pending]; cbn [Unmaybe bind];
    [| discriminate].
  destruct (parse_memory_limit limit) as [ml | | |] eqn:Hml; cbn [bind]; try discriminate.
  destruct (Get options "snapshot") as [snapshot_handle | pending]; cbn [Unmaybe bind];
    [| discriminate].
  destruct (parse_snapshot snapshot_handle) as [blob | | |] eqn:Hblob;
    cbn [bind]; try discriminate.
  destruct (Get options "inspector") as [inspector_value | pending]; cbn [Unmaybe bind];
    [| discriminate].
  intros [= <-]. exists limit, snapshot_handle, inspector_value, blob.
  cbn. repeat split; assumption.
Qed.

(** X10.  On options that can be read, whose [memoryLimit] is absent or a
    number that truncates to an integer from 8 up to the largest
    [size_t] (the numbers whose conversion on line 172 is defined and
    passes the floor), and whose [snapshot] is absent or a handle on an
    array buffer, [New] builds an isolate that obeys them: the memory
    limit is 128 when [memoryLimit] is absent and the number truncated
    towards zero otherwise; the inspector is enabled exactly when
    [inspector] is the boolean [true]; and the snapshot blob is the bytes
    of the array buffer, if one is given.  Nothing is said of a number
    outside that range: its conversion is undefined in C++. *)
Theorem New_postcondition options limit limit_mb snapshot_handle blob inspector_value :
  Get options "memoryLimit" = Handle limit ->
  (limit = Undefined /\ limit_mb = 128 \/
   exists d, limit = Number d /\ truncate d = Some limit_mb /\ 8 <= limit_mb < SIZE_MODULUS) ->
  Get options "snapshot" = Handle snapshot_handle ->
  (snapshot_handle = Undefined /\ blob = None \/
   exists bytes, snapshot_handle = Object (ExternalCopyHandle (ExternalCopyArrayBuffer bytes)) /\
                 blob = Some bytes) ->
  Get options "inspector" = Handle inspector_value ->
  exists made,
    New (Some options) = Return made /\
    memory_limit made = limit_mb /\
    snapshot_blob made = blob /\
    (inspector made = true <-> inspector_value = Boolean true).
Proof.
  intros Hlimit Hrange Hsnapshot Hblob Hinspector.
  exists (build limit_mb blob (IsTrue inspector_value)).
  split; [| split; [reflexivity | split; [reflexivity |]]].
  - unfold New. rewrite Hlimit, Hsnapshot, Hinspector. cbn [Unmaybe bind].
    assert (Hml : parse_memory_limit limit = Return limit_mb).
    { destruct Hrange as [[-> ->] | (d & -> & Hd & Hlow & Hhigh)]; [reflexivity |].
      cbn. unfold double_to_size_t. rewrite Hd.
      destruct (Z.leb_spec 0 limit_mb); [| lia].
      destruct (Z.ltb_spec limit_mb SIZE_MODULUS); [| lia]. cbn.
      destruct (Z.ltb_spec limit_mb 8); [lia | reflexivity]. }
    assert (Hsn : parse_snapshot snapshot_handle = Return blob).
    { destruct Hblob as [[-> ->] | (bytes & -> & ->)]; reflexivity. }
    rewrite Hml, Hsn. reflexivity.
  - cbn. destruct inspector_value as [| | [] | | |]; cbn; split; congruence.
Qed.

(** The number 8.5 as [memoryLimit] and the string ["true"] as
    [inspector]. *)
Lemma New_postcondition_witness :
  let eight_and_a_half := S754_finite false 4785074604081152 (-49) in
  let options : gmap string property :=
    {[ "memoryLimit" := data_property (Number eight_and_a_half);
       "inspector" := data_property (String "true") ]} in
  (Get options "memoryLimit" = Handle (Number eight_and_a_half) /\
   truncate eight_and_a_half = Some 8 /\ 8 <= 8 < SIZE_MODULUS /\
   Get options "snapshot" = Handle Undefined /\
   Get options "inspector" = Handle (String "true")) /\
  exists made,
    New (Some options) = Return made /\
    memory_limit made = 8 /\
    snapshot_blob made = None /\
    (inspector made = true <-> String "true" = Boolean true).
Proof.
  intros eight_and_a_half options.
  assert (H1 : Get options "memoryLimit" = Handle (Number eight_and_a_half))
    by (vm_compute; reflexivity).
  assert (H2 : truncate eight_and_a_half = Some 8) by (vm_compute; reflexivity).
  assert (H3 : 8 <= 8 < SIZE_MODULUS) by (rewrite SIZE_MODULUS_eq; lia).
  assert (H4 : Get options "snapshot" = Handle Undefined) by (vm_compute; reflexivity).
  assert (H5 : Get options "inspector" = Handle (String "true")) by (vm_compute; reflexivity).
  split; [repeat split; first [assumption | apply H3] |].
  apply (New_postcondition options (Number eight_and_a_half) 8 Undefined None (String "true") H1).
  - right. exists eight_and_a_half. split; [reflexivity |]. split; [exact H2 | exact H3].
  - exact H4.
  - left. split; reflexivity.
  - exact H5.
Defined.

(** X11.  For a memory limit below 2^30 the sizes [New] derives are exact:
    the allocator starts with a budget of that many MiB and nothing
    tracked, the old space gets twice the limit, and the semi space gets
    2 to the power of the limit's 128ths, capped at 16. *)
Theorem New_sizes options made :
  New (Some options) = Return made ->
  memory_limit made < 2 ^ 30 ->
  allocator made = LimitedAllocator.New (memory_limit made * 1024 * 1024) /\
  8 * 1024 * 1024 <= LimitedAllocator.limit (allocator made) /\
  LimitedAllocator.GetAllocatedSize (allocator made) = 0 /\
  max_old_space_size (rc made) = 2 * memory_limit made /\
  max_semi_space_size (rc made) = 2 ^ Z.min 4 (memory_limit made / 128) /\
  1 <= max_semi_space_size (rc made) <= 16.
Proof.
  intros Hnew Hsmall.
  destruct (New_Return_parsed options made Hnew)
    as (limit & snapshot_handle & inspector_value & blob & _ & Hml & _ & _ & _ & Hmade).
  destruct (parse_memory_limit_Return _ _ Hml) as [[Hfloor _] _].
  revert Hsmall Hfloor. rewrite Hmade. generalize (memory_limit made) as ml.
  intros ml Hsmall Hfloor. cbn in *.
  assert (H1 : size_t (size_t (ml * 1024) * 1024) = ml * 1024 * 1024).
  { rewrite (size_t_id (ml * 1024)) by (unfold is_size_t; rewrite SIZE_MODULUS_eq; lia).
    apply size_t_id. unfold is_size_t. rewrite SIZE_MODULUS_eq. lia. }
  assert (H2 : to_int (size_t (ml * 2)) = 2 * ml).
  { rewrite (size_t_id (ml * 2)) by (unfold is_size_t; rewrite SIZE_MODULUS_eq; lia).
    unfold to_int. rewrite Z.mod_small by lia. lia. }
  assert (Hdiv : 0 <= ml / 128 < 2 ^ 23).
  { split; [apply Z.div_pos; lia | apply Z.div_lt_upper_bound; lia]. }
  assert (H3 : to_int (ml / 128) = ml / 128).
  { unfold to_int. rewrite Z.mod_small by lia. lia. }
  assert (H4 : semi_space_size ml = 2 ^ Z.min 4 (ml / 128)).
  { unfold semi_space_size. rewrite H3.
    destruct (Z.ltb_spec (Z.min 4 (ml / 128)) 0); [lia | reflexivity]. }
  rewrite H1, H2, H4.
  assert (Hk : Z.min 4 (ml / 128) = 0 \/ Z.min 4 (ml / 128) = 1 \/ Z.min 4 (ml / 128) = 2 \/
               Z.min 4 (ml / 128) = 3 \/ Z.min 4 (ml / 128) = 4) by lia.
  repeat split; try lia;
    destruct Hk as [-> | [-> | [-> | [-> | ->]]]]; cbn; lia.
Qed.

Lemma New_sizes_witness :
  let options : gmap string property :=
    {[ "memoryLimit" := data_property (Number (S754_finite false 4503599627370496 (-44))) ]} in
  exists made,
    (New (Some options) = Return made /\ memory_limit made < 2 ^ 30) /\
    memory_limit made = 256 /\
    allocator made = LimitedAllocator.New (256 * 1024 * 1024) /\
    max_old_space_size (rc made) = 512 /\
    max_semi_space_size (rc made) = 4.
Proof.
  intros options. eexists.
  assert (Hnew : New (Some options) = Return (build 256 None false))
    by (vm_compute; reflexivity).
  assert (Hsmall : memory_limit (build 256 None false) < 2 ^ 30) by (cbn; lia).
  split; [split; [exact Hnew | exact Hsmall] |].
  destruct (New_sizes options (build 256 None false) Hnew Hsmall) as (H1 & _ & _ & H4 & H5 & _).
  split; [reflexivity |]. split; [exact H1 |]. split; [exact H4 | exact H5].
Defined.

(** X12.  With a good [memoryLimit], a [snapshot] that is defined and is
    not a handle on an array buffer is refused with a type error, whatever
    [inspector] is, and nothing is built. *)
Theorem New_snapshot_refused options limit memory_limit snapshot_handle :
  Get options "memoryLimit" = Handle limit ->
  parse_memory_limit limit = Return memory_limit ->
  Get options "snapshot" = Handle snapshot_handle ->
  snapshot_handle <> Undefined ->
  (forall bytes,
     snapshot_handle <> Object (ExternalCopyHandle (ExternalCopyArrayBuffer bytes))) ->
  New (Some options) = Throw (js_type_error "`snapshot` must be an ExternalCopy to ArrayBuffer").
Proof.
  intros Hlimit Hml Hget Hdef Hnot. unfold New. rewrite Hlimit, Hget. cbn [Unmaybe bind].
  rewrite Hml. cbn [bind].
  unfold parse_snapshot.
  destruct snapshot_handle as [| | | | | [| [data | tag]]]; cbn; try reflexivity.
  - congruence.
  - exfalso. exact (Hnot data eq_refl).
Qed.

Lemma New_snapshot_refused_witness :
  let handle := Object (ExternalCopyHandle (ExternalCopyOther "string")) in
  let options : gmap string property := {[ "snapshot" := data_property handle ]} in
  (Get options "memoryLimit" = Handle Undefined /\
   parse_memory_limit Undefined = Return 128 /\
   Get options "snapshot" = Handle handle /\
   handle <> Undefined) /\
  New (Some options) = Throw (js_type_error "`snapshot` must be an ExternalCopy to ArrayBuffer").
Proof.
  intros handle options.
  assert (H0 : Get options "memoryLimit" = Handle Undefined) by (vm_compute; reflexivity).
  assert (H1 : parse_memory_limit Undefined = Return 128) by reflexivity.
  assert (Hget : Get options "snapshot" = Handle handle) by (vm_compute; reflexivity).
  assert (H2 : handle <> Undefined) by discriminate.
  split; [repeat split; assumption |].
  apply (New_snapshot_refused options Undefined 128 handle H0 H1 Hget H2).
  intros bytes. discriminate.
Defined.

End IsolateCreation.

(** ** The life of a context *)

Module ContextLifecycle.
Import CreateContextRunner.

(** X13.  [Phase2] of [createContext] throws exactly when the inspector is
    asked for on an isolate without an inspector agent, and then nothing
    is made; otherwise it makes the context, and tells the inspector of it
    exactly when the inspector was asked for.  A runner made without
    options never asks. *)
Theorem Phase2_outcome env current_holder context_handle r :
  (enable_inspector r = true -> GetInspectorAgent env = None ->
     Phase2 env current_holder context_handle r
     = Throw (js_generic_error "Inspector is not enabled for this isolate")) /\
  (enable_inspector r = false \/ is_Some (GetInspectorAgent env) ->
     exists made,
       Phase2 env current_holder context_handle r
       = Return (if enable_inspector r
                 then [ContextCreated context_handle "<isolated-vm>"] else [], made) /\
       context_ptr made = Some context_handle) /\
  (forall isolate,
     New None isolate = Return {| enable_inspector := false; runner_isolate := isolate |}).
Proof.
  unfold Phase2. repeat split.
  - intros -> ->. reflexivity.
  - intros [-> | Hagent].
    + cbn. eexists. split; reflexivity.
    + rewrite (bool_decide_eq_true_2 _ Hagent). rewrite andb_false_r.
      eexists. split; reflexivity.
Qed.

Lemma Phase2_outcome_witness :
  let env := {| env_id := 3%positive; GetInspectorAgent := None |} in
  let isolate := {| holder_id := 1%positive; GetIsolate := Some env |} in
  let wanted := {| enable_inspector := true; runner_isolate := isolate |} in
  let plain := {| enable_inspector := false; runner_isolate := isolate |} in
  (New (Some {[ "inspector" := data_property (Boolean true) ]}) isolate = Return wanted /\
   New None isolate = Return plain) /\
  ((enable_inspector wanted = true /\ GetInspectorAgent env = None) /\
   Phase2 env 1%positive 7%positive wanted
   = Throw (js_generic_error "Inspector is not enabled for this isolate")) /\
  (enable_inspector plain = false /\
   exists made, Phase2 env 1%positive 7%positive plain = Return ([], made)).
Proof.
  intros env isolate wanted plain.
  assert (H1 : enable_inspector wanted = true) by reflexivity.
  assert (H2 : enable_inspector plain = false) by reflexivity.
  split; [split; [vm_compute; reflexivity |] |].
  { exact (proj2 (proj2 (Phase2_outcome env 1%positive 7%positive plain)) isolate). }
  split.
  - split; [split; [exact H1 | reflexivity] |].
    exact (proj1 (Phase2_outcome env 1%positive 7%positive wanted) H1 eq_refl).
  - split; [exact H2 |].
    destruct (proj1 (proj2 (Phase2_outcome env 1%positive 7%positive plain)) (or_introl H2))
      as (made & Hmade & _).
    exists made. rewrite Hmade, H2. reflexivity.
Defined.

(** X14.  The notifications of the inspector come in pairs.  When the last
    reference to a context made by [Phase2] is dropped while the holder is
    alive, the deleter schedules on that holder one disposer, which, when
    run, releases the context once and tells the inspector of the
    destruction exactly when [Phase2] had told it of the creation. *)
Theorem inspector_notifications_pair env current_holder context_handle r events made alive :
  Phase2 env current_holder context_handle r = Return (events, made) ->
  alive current_holder = true ->
  exists task,
    ContextDeleter_call alive (context_deleter made) (context_ptr made)
    = [ScheduleTask current_holder task true false] /\
    (ContextDestroyed (Some context_handle) ∈ (Run task).1 <->
     ContextCreated context_handle "<isolated-vm>" ∈ events) /\
    List.filter is_release (Run task).1 = [PersistentReset (Some context_handle)] /\
    context (Run task).2 = None.
Proof.
  unfold Phase2. destruct (_ && _); [discriminate |].
  intros [= <- <-] Halive. unfold ContextDeleter_call, lock. cbn. rewrite Halive.
  eexists. split; [reflexivity |].
  destruct (enable_inspector r); cbn.
  - repeat split; try reflexivity; intros _.
    + apply list_elem_of_singleton. reflexivity.
    + rewrite !elem_of_cons. auto.
  - repeat split; try reflexivity.
    + rewrite !elem_of_cons. intros [H | [H | H]]; try discriminate H.
      apply elem_of_nil in H. destruct H.
    + intros H. apply elem_of_nil in H. destruct H.
Qed.

Lemma inspector_notifications_pair_witness :
  let env := {| env_id := 3%positive; GetInspectorAgent := Some 9%positive |} in
  let isolate := {| holder_id := 1%positive; GetIsolate := Some env |} in
  let r := {| enable_inspector := true; runner_isolate := isolate |} in
  let made := {| context_ptr := Some 7%positive;
                 context_deleter := {| isolate := 1%positive; deleter_has_inspector := true |};
                 global := 7%positive |} in
  New (Some {[ "inspector" := data_property (Boolean true) ]}) isolate = Return r /\
  (Phase2 env 1%positive 7%positive r
   = Return ([ContextCreated 7%positive "<isolated-vm>"], made) /\
   (fun _ : positive => true) 1%positive = true) /\
  exists task,
    ContextDeleter_call (fun _ => true) (context_deleter made) (context_ptr made)
    = [ScheduleTask 1%positive task true false] /\
    ContextDestroyed (Some 7%positive) ∈ (Run task).1.
Proof.
  intros env isolate r made.
  assert (H1 : Phase2 env 1%positive 7%positive r
               = Return ([ContextCreated 7%positive "<isolated-vm>"], made))
    by (vm_compute; reflexivity).
  split; [vm_compute; reflexivity |].
  split; [split; [exact H1 | reflexivity] |].
  destruct (inspector_notifications_pair env 1%positive 7%positive r _ made (fun _ => true)
              H1 eq_refl) as (task & Hcall & Hpair & _).
  exists task. split; [exact Hcall |].
  apply Hpair. apply list_elem_of_singleton. reflexivity.
Defined.

(** X15.  Whatever its flag, a disposer that holds a context releases it
    exactly once when it runs, ends by telling the isolate that a context
    was disposed, and is left empty: running it again releases nothing. *)
Theorem Run_releases_once d :
  context (Run d).2 = None /\
  List.filter is_release (Run (Run d).2).1 = [] /\
  last (Run d).1 = Some ContextDisposedNotification /\
  (forall c, context d = Some c ->
     List.filter is_release (Run d).1 = [PersistentReset (Some c)]).
Proof.
  destruct d as [[c |] []]; cbn; repeat split; try reflexivity;
    intros c' [= <-]; reflexivity || discriminate.
Qed.

Lemma Run_releases_once_witness :
  let d := {| context := Some 7%positive; has_inspector := true |} in
  context d = Some 7%positive /\
  List.filter is_release (Run d).1 = [PersistentReset (Some 7%positive)] /\
  List.filter is_release (Run (Run d).2).1 = [].
Proof.
  intros d.
  destruct (Run_releases_once d) as (_ & H2 & _ & H4).
  split; [reflexivity |]. split; [exact (H4 7%positive eq_refl) | exact H2].
Defined.

End ContextLifecycle.

(** ** Compiling without a supplied cache, and failing *)

Module CompileScriptMore.
Import CompileScriptRunner.

(** What the constructor returns when it returns. *)
Lemma New_Return isolate code maybe_options r :
  New isolate code maybe_options = Return r ->
  exists holder blob produce,
    ScriptOriginHolder.New maybe_options = Return holder /\
    r = Build isolate code holder blob produce None false false /\
    match maybe_options with
    | None => blob = None /\ produce = false
    | Some options =>
        (exists cached_data_handle,
           Get options "cachedData" = Handle cached_data_handle /\
           parse_cached_data cached_data_handle = Return blob) /\
        produce = match Get options "produceCachedData" with
                  | Handle v => IsTrue v
                  | Empty _ => false
                  end
    end.
Proof.
  unfold New.
  destruct (ScriptOriginHolder.New maybe_options) as [holder | | |]; cbn [bind];
    try discriminate.
  destruct maybe_options as [options |].
  - destruct (Get options "cachedData") as [cached_data_handle | pending];
      cbn [Unmaybe bind]; [| discriminate].
    destruct (parse_cached_data cached_data_handle) as [blob | | |] eqn:Hblob;
      cbn [bind]; try discriminate.
    intros [= <-]. eexists holder, blob, _.
    split; [reflexivity |]. split; [reflexivity |].
    split; [| reflexivity]. exists cached_data_handle. split; [reflexivity | exact Hblob].
  - intros [= <-]. exists holder, None, false. repeat split; reflexivity.
Qed.

(** X16.  With [produceCachedData: true] and no [cachedData], the compiler
    is asked to produce a cache and gets none to consume, and the [Script]
    object carries the bytes it produced as [cachedData], and nothing
    else. *)
Theorem produced_cache_is_returned copy_code compile isolate code options r
    code_inner script cache_rejected bytes :
  Get options "cachedData" = Handle Undefined ->
  Get options "produceCachedData" = Handle (Boolean true) ->
  New isolate code (Some options) = Return r ->
  copy_code (code_string r) = Return code_inner ->
  compile (source code_inner r) (compile_options r)
  = Compiled script cache_rejected (Some bytes) ->
  compile_options r = kProduceCodeCache /\
  cached_data (source code_inner r) = None /\
  exists r2,
    Phase2 copy_code compile r = Return r2 /\
    handle_script (Phase3 r2) = Some script /\
    properties (Phase3 r2)
    = {[ "cachedData" := Object (ExternalCopyHandle (ExternalCopyArrayBuffer bytes)) ]}.
Proof.
  intros Hcached Hproduce Hnew Hcopy Hcompile.
  destruct (New_Return _ _ _ _ Hnew)
    as (holder & blob & produce & _ & -> & (handle & Hget & Hblob) & ->).
  rewrite Hcached in Hget. injection Hget as <-. cbn in Hblob. injection Hblob as <-.
  rewrite Hproduce in *. cbn in *.
  split; [reflexivity |]. split; [reflexivity |].
  unfold Phase2. cbn. rewrite Hcopy. cbn [bind].
  unfold compile_options in Hcompile. cbn in Hcompile. rewrite Hcompile. cbn.
  eexists. split; [reflexivity |]. split; reflexivity.
Qed.

Lemma produced_cache_is_returned_witness :
  let isolate := {| holder_id := 2%positive; GetIsolate := None |} in
  let options : gmap string property :=
    {[ "produceCachedData" := data_property (Boolean true) ]} in
  let r := Build isolate "1 + 1" ScriptOriginHolder.initial None true None false false in
  let copy_code := fun code : string => Return code in
  let compile := fun (_ : Source) (_ : CompileOptions) =>
                   Compiled 5%positive false (Some [Byte.x03]) in
  (Get options "cachedData" = Handle Undefined /\
   Get options "produceCachedData" = Handle (Boolean true) /\
   New isolate "1 + 1" (Some options) = Return r) /\
  compile_options r = kProduceCodeCache /\
  exists r2,
    Phase2 copy_code compile r = Return r2 /\
    handle_script (Phase3 r2) = Some 5%positive /\
    properties (Phase3 r2)
    = {[ "cachedData" := Object (ExternalCopyHandle (ExternalCopyArrayBuffer [Byte.x03])) ]}.
Proof.
  intros isolate options r copy_code compile.
  assert (H1 : Get options "cachedData" = Handle Undefined) by (vm_compute; reflexivity).
  assert (H2 : Get options "produceCachedData" = Handle (Boolean true))
    by (vm_compute; reflexivity).
  assert (H3 : New isolate "1 + 1" (Some options) = Return r) by (vm_compute; reflexivity).
  split; [repeat split; assumption |].
  destruct (produced_cache_is_returned copy_code compile isolate "1 + 1"%string options r
              "1 + 1"%string 5%positive false [Byte.x03] H1 H2 H3 eq_refl eq_refl)
    as (H4 & _ & H5).
  split; [exact H4 | exact H5].
Defined.

(** X17.  Without options, or with options that neither hold [cachedData]
    nor set [produceCachedData] to [true], the compiler is given no
    compile option, and the [Script] object has no property, whatever the
    compiler reports about caches. *)
Theorem plain_compile_sets_no_property copy_code compile isolate code maybe_options r
    code_inner script cache_rejected produced :
  (forall options, maybe_options = Some options ->
     Get options "cachedData" = Handle Undefined /\
     forall v, Get options "produceCachedData" = Handle v -> IsTrue v = false) ->
  New isolate code maybe_options = Return r ->
  copy_code (code_string r) = Return code_inner ->
  compile (source code_inner r) (compile_options r) = Compiled script cache_rejected produced ->
  compile_options r = kNoCompileOptions /\
  exists r2,
    Phase2 copy_code compile r = Return r2 /\
    handle_script (Phase3 r2) = Some script /\
    properties (Phase3 r2) = ∅.
Proof.
  intros Hplain Hnew Hcopy Hcompile.
  destruct (New_Return _ _ _ _ Hnew) as (holder & blob & produce & _ & -> & Hfields).
  assert (blob = None /\ produce = false) as [-> ->].
  { destruct maybe_options as [options |]; [| exact Hfields].
    destruct (Hplain options eq_refl) as [Hcached Hflag].
    destruct Hfields as [(handle & Hget & Hblob) ->].
    rewrite Hcached in Hget. injection Hget as <-. cbn in Hblob.
    injection Hblob as <-. split; [reflexivity |].
    destruct (Get options "produceCachedData") as [v | pending]; [| reflexivity].
    exact (Hflag v eq_refl). }
  split; [reflexivity |].
  cbn in Hcopy. unfold Phase2. cbn. rewrite Hcopy. cbn [bind].
  unfold compile_options in Hcompile. cbn in Hcompile. rewrite Hcompile. cbn.
  eexists. split; [reflexivity |]. split; reflexivity.
Qed.

Lemma plain_compile_sets_no_property_witness :
  let isolate := {| holder_id := 2%positive; GetIsolate := None |} in
  let r := Build isolate "1 + 1" ScriptOriginHolder.initial None false None false false in
  let copy_code := fun code : string => Return code in
  let compile := fun (_ : Source) (_ : CompileOptions) =>
                   Compiled 5%positive true (Some [Byte.x03]) in
  New isolate "1 + 1" None = Return r /\
  exists r2,
    Phase2 copy_code compile r = Return r2 /\
    handle_script (Phase3 r2) = Some 5%positive /\
    properties (Phase3 r2) = ∅.
Proof.
  intros isolate r copy_code compile.
  assert (H1 : New isolate "1 + 1" None = Return r) by reflexivity.
  split; [exact H1 |].
  refine (proj2 (plain_compile_sets_no_property copy_code compile isolate "1 + 1"%string None r
                   "1 + 1"%string 5%positive true (Some [Byte.x03]) _ H1 eq_refl eq_refl)).
  intros options H. discriminate H.
Defined.

(** X18.  Failures of [Phase2] are those of its two calls, unchanged: when
    the copy of the code into the isolate throws, [Phase2] throws the
    same, whatever the compiler would do; when the compiler fails,
    [Phase2] throws [js_runtime_error] with the exception the compiler
    left pending.  No runner results. *)
Theorem Phase2_failures copy_code compile r :
  (forall e, copy_code (code_string r) = Throw e ->
     forall compile', Phase2 copy_code compile' r = Throw e) /\
  (forall code_inner exception,
     copy_code (code_string r) = Return code_inner ->
     compile (source code_inner r) (compile_options r) = CompileFailed exception ->
     Phase2 copy_code compile r = Throw (js_runtime_error (Some exception))).
Proof.
  split.
  - intros e Hcopy compile'. unfold Phase2. rewrite Hcopy. reflexivity.
  - intros code_inner exception Hcopy Hcompile. unfold Phase2. rewrite Hcopy. cbn [bind].
    rewrite Hcompile. reflexivity.
Qed.

Lemma Phase2_failures_witness :
  let r := Build {| holder_id := 2%positive; GetIsolate := None |} "}" ScriptOriginHolder.initial
             None false None false false in
  let copy_code := fun code : string => Return code in
  let compile := fun (_ : Source) (_ : CompileOptions) => CompileFailed (String "SyntaxError") in
  (copy_code (code_string r) = Return "}"%string /\
   compile (source "}" r) (compile_options r) = CompileFailed (String "SyntaxError")) /\
  Phase2 copy_code compile r = Throw (js_runtime_error (Some (String "SyntaxError"))).
Proof.
  intros r copy_code compile.
  split; [split; reflexivity |].
  exact (proj2 (Phase2_failures copy_code compile r) "}"%string (String "SyntaxError")
           eq_refl eq_refl).
Defined.

(** X19.  When a cache is to be produced and the compiler compiles but
    attaches no cache to the source, [Phase2] neither returns nor throws:
    the assertion on line 373 fails. *)
Theorem produce_without_cache_fails_assertion copy_code compile r code_inner script cache_rejected :
  cached_data_blob r = None ->
  produce_cached_data r = true ->
  copy_code (code_string r) = Return code_inner ->
  compile (source code_inner r) (compile_options r) = Compiled script cache_rejected None ->
  Phase2 copy_code compile r = AssertionFailure.
Proof.
  intros Hblob Hproduce Hcopy Hcompile. unfold Phase2. rewrite Hcopy. cbn [bind].
  rewrite Hcompile. unfold GetCachedData, source. cbn. rewrite Hblob, Hproduce. reflexivity.
Qed.

Lemma produce_without_cache_fails_assertion_witness :
  let r := Build {| holder_id := 2%positive; GetIsolate := None |} "1" ScriptOriginHolder.initial
             None true None false false in
  let copy_code := fun code : string => Return code in
  let compile := fun (_ : Source) (_ : CompileOptions) => Compiled 5%positive false None in
  (cached_data_blob r = None /\ produce_cached_data r = true) /\
  Phase2 copy_code compile r = AssertionFailure.
Proof.
  intros r copy_code compile.
  split; [split; reflexivity |].
  exact (produce_without_cache_fails_assertion copy_code compile r "1"%string 5%positive false
           eq_refl eq_refl eq_refl eq_refl).
Defined.

(** X20.  The constructor checks the origin options before [cachedData]:
    an error of [ScriptOriginHolder] is the error of the constructor
    whatever [cachedData] is; with good origin options, a [cachedData]
    that is defined and is not a handle on an array buffer is refused with
    a type error. *)
Theorem New_validation isolate code options :
  (forall e, ScriptOriginHolder.New (Some options) = Throw e ->
     New isolate code (Some options) = Throw e) /\
  (forall holder cached_data_handle,
     ScriptOriginHolder.New (Some options) = Return holder ->
     Get options "cachedData" = Handle cached_data_handle ->
     cached_data_handle <> Undefined ->
     (forall bytes,
        cached_data_handle
        <> Object (ExternalCopyHandle (ExternalCopyArrayBuffer bytes))) ->
     New isolate code (Some options)
     = Throw (js_type_error "`cachedData` must be an ExternalCopy to ArrayBuffer")).
Proof.
  split.
  - intros e He. unfold New. rewrite He. reflexivity.
  - intros holder cached_data_handle Hholder Hget Hdef Hnot.
    unfold New. rewrite Hholder, Hget. cbn [Unmaybe bind].
    unfold parse_cached_data.
    destruct cached_data_handle as [| | | | | [| [data | tag]]]; cbn; try reflexivity.
    + congruence.
    + exfalso. exact (Hnot data eq_refl).
Qed.

Lemma New_validation_witness :
  let isolate := {| holder_id := 2%positive; GetIsolate := None |} in
  let options : gmap string property :=
    {[ "filename" := data_property (Boolean true);
       "cachedData" := data_property (String "cache") ]} in
  ScriptOriginHolder.New (Some options) = Throw (js_type_error "`filename` must be a string") /\
  New isolate "1" (Some options) = Throw (js_type_error "`filename` must be a string").
Proof.
  intros isolate options.
  assert (H : ScriptOriginHolder.New (Some options)
              = Throw (js_type_error "`filename` must be a string"))
    by (vm_compute; reflexivity).
  split; [exact H |].
  exact (proj1 (New_validation isolate "1"%string options) _ H).
Defined.

(** X21.  Whenever [compileScript] gets as far as a [Script] object, that
    object wraps a compiled script and the holder the runner was made
    for, and the code the runner holds is still the code it was given. *)
Theorem Script_wraps_compiled_script copy_code compile isolate code maybe_options r r2 :
  New isolate code maybe_options = Return r ->
  Phase2 copy_code compile r = Return r2 ->
  handle_isolate (Phase3 r2) = isolate /\
  is_Some (handle_script (Phase3 r2)) /\
  code_string r2 = code.
Proof.
  intros Hnew Hphase2.
  destruct (New_Return _ _ _ _ Hnew) as (holder & blob & produce & _ & -> & _).
  revert Hphase2. unfold Phase2. cbn.
  destruct (copy_code code) as [code_inner | | |]; cbn [bind]; try discriminate.
  destruct (compile _ _) as [exception | script cache_rejected produced]; [discriminate |].
  unfold GetCachedData, source. cbn.
  destruct blob as [bytes |]; cbn.
  - intros [= <-]. cbn. repeat split. eexists; reflexivity.
  - destruct produce; cbn.
    + destruct produced as [bytes |]; cbn; [| discriminate].
      intros [= <-]. cbn. repeat split. eexists; reflexivity.
    + intros [= <-]. cbn. repeat split. eexists; reflexivity.
Qed.

Lemma Script_wraps_compiled_script_witness :
  let isolate := {| holder_id := 2%positive; GetIsolate := None |} in
  let r := Build isolate "1 + 1" ScriptOriginHolder.initial None false None false false in
  let copy_code := fun code : string => Return code in
  let compile := fun (_ : Source) (_ : CompileOptions) => Compiled 5%positive false None in
  let r2 := Build isolate "1 + 1" ScriptOriginHolder.initial None false (Some 5%positive)
              false false in
  (New isolate "1 + 1" None = Return r /\ Phase2 copy_code compile r = Return r2) /\
  handle_isolate (Phase3 r2) = isolate /\ is_Some (handle_script (Phase3 r2)).
Proof.
  intros isolate r copy_code compile r2.
  split; [split; reflexivity |].
  destruct (Script_wraps_compiled_script copy_code compile isolate "1 + 1"%string None r r2
              eq_refl eq_refl) as (H1 & H2 & _).
  split; [exact H1 | exact H2].
Defined.

End CompileScriptMore.

(** ** Marshalling the scripts of a snapshot *)

Module SnapshotMarshalling.
Import IsolateHandle.

(** The three ways marshalling ends.  A [js_runtime_error] comes from a
    read that failed: of a name that is no array index, of an element, or
    of a property of an element. *)
Lemma marshal_scripts_from_cases script_handles : forall ii,
  (exists scripts, marshal_scripts_from ii script_handles = Return scripts) \/
  (exists message, marshal_scripts_from ii script_handles = Throw (js_type_error message)) \/
  (exists pending entry,
     marshal_scripts_from ii script_handles = Throw (js_runtime_error pending) /\
     entry ∈ script_handles /\
     ((exists name, entry.1 = not_an_index name /\ pending = None) \/
      entry.2 = Empty pending \/
      exists properties key,
        entry.2 = Handle (ScriptObject properties) /\ Get properties key = Empty pending)).
Proof.
  induction script_handles as [| [name element] rest IH]; intros ii; cbn [marshal_scripts_from].
  - left. eexists. reflexivity.
  - destruct name as [key | name]; cbn [ToArrayIndex Unmaybe bind].
    2: { right. right. exists None, (not_an_index name, element).
         split; [reflexivity |]. split; [apply list_elem_of_here |].
         left. exists name. split; reflexivity. }
    destruct (negb (key =? ii)); [right; left; eexists; reflexivity |].
    destruct element as [[properties | v] | pending]; cbn [Unmaybe bind].
    3: { right. right. exists pending, (array_index key, Empty pending).
         split; [reflexivity |]. split; [apply list_elem_of_here |].
         right. left. reflexivity. }
    2: { right. left. eexists. reflexivity. }
    destruct (Get properties "code") as [script | pending] eqn:Hcode; cbn [Unmaybe bind].
    2: { right. right. exists pending, (array_index key, Handle (ScriptObject properties)).
         split; [reflexivity |]. split; [apply list_elem_of_here |].
         right. right. exists properties, "code"%string. split; [reflexivity | exact Hcode]. }
    destruct script as [| | | | code |]; try (right; left; eexists; reflexivity).
    destruct (ScriptOriginHolderFacts.New_cases (Some properties))
      as [(h & -> & _) | [(message & ->) | (options & key' & pending & [= <-] & _ & Hget & ->)]];
      cbn [bind].
    + destruct (IH (ii + 1))
        as [(scripts & ->) | [(message & ->) | (pending & entry & -> & Hin & Hwhy)]];
        cbn [bind].
      * left. eexists. reflexivity.
      * right. left. eexists. reflexivity.
      * right. right. exists pending, entry.
        split; [reflexivity |]. split; [apply list_elem_of_further; exact Hin | exact Hwhy].
    + right. left. eexists. reflexivity.
    + right. right. exists pending, (array_index key, Handle (ScriptObject properties)).
      split; [reflexivity |]. split; [apply list_elem_of_here |].
      right. right. exists properties, key'. split; [reflexivity | exact Hget].
Qed.

Lemma marshal_scripts_from_keys script_handles : forall ii scripts,
  marshal_scripts_from ii script_handles = Return scripts ->
  length scripts = length script_handles /\
  forall (i : nat) entry,
    script_handles !! i = Some entry -> entry.1 = array_index (ii + Z.of_nat i).
Proof.
  induction script_handles as [| [name element] rest IH]; intros ii scripts H.
  - injection H as <-. split; [reflexivity |]. intros i entry Hi. discriminate Hi.
  - cbn [marshal_scripts_from] in H.
    destruct name as [key | name]; cbn [ToArrayIndex Unmaybe bind] in H; [| discriminate H].
    destruct (Z.eqb_spec key ii) as [-> | Hne]; cbn [negb] in H; [| discriminate H].
    destruct element as [[properties | v] | pending]; try discriminate H.
    cbn [Unmaybe bind] in H.
    destruct (Get properties "code") as [script | pending]; try discriminate H.
    cbn [Unmaybe bind] in H.
    destruct script as [| | | | code |]; try discriminate H.
    destruct (ScriptOriginHolder.New (Some properties)) as [origin | | |];
      try discriminate H.
    cbn [bind] in H.
    destruct (marshal_scripts_from (ii + 1) rest) as [scripts' | | |] eqn:Hrest;
      try discriminate H.
    injection H as <-. destruct (IH (ii + 1) scripts' Hrest) as [Hlen Hkeys].
    split; [cbn; congruence |].
    intros [| i] entry Hi; cbn in Hi.
    + injection Hi as <-. cbn. f_equal. lia.
    + rewrite (Hkeys i entry Hi). f_equal. lia.
Qed.

(** X22.  Marshalling the [scripts] array ends in one of three ways: it
    yields the scripts, or throws a type error, or throws
    [js_runtime_error] because a read failed (of a property name that is
    no array index, which leaves nothing pending, or of an element or a
    property of an element, whose accessor threw).  It yields the scripts
    only for an array without holes whose elements are objects with a
    string [code]: as many scripts as own properties, the [i]-th property
    being index [i], and each script the [code] of its object up to the
    first NUL with the origin of that object, in the order of the
    array. *)
Theorem marshal_scripts_outcome script_handles :
  ((exists scripts, marshal_scripts script_handles = Return scripts) \/
   (exists message, marshal_scripts script_handles = Throw (js_type_error message)) \/
   (exists pending entry,
      marshal_scripts script_handles = Throw (js_runtime_error pending) /\
      entry ∈ script_handles /\
      ((exists name, entry.1 = not_an_index name /\ pending = None) \/
       entry.2 = Empty pending \/
       exists properties key,
         entry.2 = Handle (ScriptObject properties) /\ Get properties key = Empty pending))) /\
  forall scripts,
    marshal_scripts script_handles = Return scripts ->
    length scripts = length script_handles /\
    (forall (i : nat) entry,
       script_handles !! i = Some entry -> entry.1 = array_index (Z.of_nat i)) /\
    Forall2 (fun entry script =>
               exists properties code,
                 entry.2 = Handle (ScriptObject properties) /\
                 Get properties "code" = Handle (String code) /\
                 script.1 = c_str code /\
                 ScriptOriginHolder.New (Some properties) = Return script.2)
            script_handles scripts.
Proof.
  split; [exact (marshal_scripts_from_cases script_handles 0) |].
  intros scripts H. unfold marshal_scripts in H.
  destruct (marshal_scripts_from_keys script_handles 0 scripts H) as [Hlen Hkeys].
  split; [exact Hlen |]. split.
  - intros i entry Hi. rewrite (Hkeys i entry Hi). f_equal.
  - exact (IsolateHandleFacts.marshal_scripts_from_order script_handles 0 scripts H).
Qed.

(** Two scripts, the second with a NUL in its code and a file name. *)
Lemma marshal_scripts_outcome_witness :
  let script_handles :=
    [(array_index 0, Handle (ScriptObject {[ "code" := data_property (String "a = 1") ]}));
     (array_index 1,
      Handle (ScriptObject
                {[ "code" := data_property
                               (String ("b = a" +:+ String.String Ascii.zero "; c = 2"));
                   "filename" := data_property (String "b.js") ]}))] in
  let scripts :=
    [("a = 1"%string, ScriptOriginHolder.initial);
     ("b = a"%string, ScriptOriginHolder.Build "b.js" 0 0)] in
  marshal_scripts script_handles = Return scripts /\
  length scripts = length script_handles.
Proof.
  intros script_handles scripts.
  assert (H : marshal_scripts script_handles = Return scripts) by (vm_compute; reflexivity).
  split; [exact H |].
  exact (proj1 (proj2 (marshal_scripts_outcome script_handles) scripts H)).
Defined.

(** X23.  The first bad element decides the error, and nothing behind it
    is looked at.  After elements that marshal, an element whose property
    name is not the next index is refused as an invalid array; an element
    at the right index that is not an object is refused; and an object
    without a string [code] is refused for that before its origin options
    are read. *)
Theorem marshal_scripts_first_error good : forall ii scripts entry rest,
  marshal_scripts_from ii good = Return scripts ->
  (forall key,
     entry.1 = array_index key ->
     key <> ii + Z.of_nat (length good) ->
     marshal_scripts_from ii (good ++ entry :: rest)
     = Throw (js_type_error "Invalid `scripts` array")) /\
  (forall element,
     entry.1 = array_index (ii + Z.of_nat (length good)) ->
     entry.2 = Handle element ->
     (forall properties, element <> ScriptObject properties) ->
     marshal_scripts_from ii (good ++ entry :: rest)
     = Throw (js_type_error "`scripts` should be array of objects")) /\
  (forall properties script,
     entry.1 = array_index (ii + Z.of_nat (length good)) ->
     entry.2 = Handle (ScriptObject properties) ->
     Get properties "code" = Handle script ->
     (forall code, script <> String code) ->
     marshal_scripts_from ii (good ++ entry :: rest)
     = Throw (js_type_error "`code` property is required")).
Proof.
  induction good as [| [name element] good IH]; intros ii scripts [entry_name entry_element] rest H.
  - cbn [app length marshal_scripts_from fst snd]. rewrite Z.add_0_r.
    repeat split.
    + intros key -> Hne. cbn [ToArrayIndex Unmaybe bind].
      destruct (Z.eqb_spec key ii); [contradiction | reflexivity].
    + intros element' -> -> Hnot. cbn [ToArrayIndex Unmaybe bind].
      rewrite Z.eqb_refl. cbn [negb].
      destruct element' as [properties | v]; [| reflexivity].
      exfalso. exact (Hnot properties eq_refl).
    + intros properties script -> -> Hcode Hnot. cbn [ToArrayIndex Unmaybe bind].
      rewrite Z.eqb_refl. cbn [negb]. rewrite Hcode. cbn [Unmaybe bind].
      destruct script; try reflexivity.
      exfalso. exact (Hnot s eq_refl).
  - cbn [marshal_scripts_from] in H.
    destruct name as [key | name]; cbn [ToArrayIndex Unmaybe bind] in H; [| discriminate H].
    destruct (negb (key =? ii)) eqn:Hkey; [discriminate H |].
    destruct element as [[properties | v] | pending]; try discriminate H.
    cbn [Unmaybe bind] in H.
    destruct (Get properties "code") as [script | pending] eqn:Hcode; try discriminate H.
    cbn [Unmaybe bind] in H.
    destruct script as [| | | | code |]; try discriminate H.
    destruct (ScriptOriginHolder.New (Some properties)) as [origin | | |] eqn:Horigin;
      try discriminate H.
    cbn [bind] in H.
    destruct (marshal_scripts_from (ii + 1) good) as [scripts' | | |] eqn:Hgood;
      try discriminate H.
    destruct (IH (ii + 1) scripts' (entry_name, entry_element) rest Hgood) as (H1 & H2 & H3).
    cbn [fst snd] in *.
    replace (ii + Z.of_nat (length ((array_index key, Handle (ScriptObject properties)) :: good)))
      with (ii + 1 + Z.of_nat (length good)) by (cbn [length]; lia).
    cbn [app marshal_scripts_from ToArrayIndex Unmaybe bind].
    rewrite Hkey, Hcode. cbn [Unmaybe bind]. rewrite Horigin. cbn [bind].
    repeat split.
    + intros key' Hname Hne. rewrite (H1 key' Hname Hne). reflexivity.
    + intros element' Hname Helement Hnot. rewrite (H2 element' Hname Helement Hnot). reflexivity.
    + intros properties' script Hname Helement Hget Hnot.
      rewrite (H3 properties' script Hname Helement Hget Hnot). reflexivity.
Qed.

Lemma marshal_scripts_first_error_witness :
  let good :=
    [(array_index 0, Handle (ScriptObject {[ "code" := data_property (String "a = 1") ]}))] in
  let hole :=
    (array_index 2, Handle (ScriptObject {[ "code" := data_property (String "b = 1") ]})) in
  (marshal_scripts_from 0 good = Return [("a = 1"%string, ScriptOriginHolder.initial)] /\
   hole.1 = array_index 2 /\
   2 <> 0 + Z.of_nat (length good)) /\
  marshal_scripts_from 0 (good ++ hole :: [(array_index 3, Handle (NotAnObject Null))])
  = Throw (js_type_error "Invalid `scripts` array").
Proof.
  intros good hole.
  assert (H1 : marshal_scripts_from 0 good
               = Return [("a = 1"%string, ScriptOriginHolder.initial)])
    by (vm_compute; reflexivity).
  assert (H2 : 2 <> 0 + Z.of_nat (length good)) by (cbn; lia).
  split; [split; [exact H1 | split; [reflexivity | exact H2]] |].
  exact (proj1 (marshal_scripts_first_error good 0 _ hole
                  [(array_index 3, Handle (NotAnObject Null))] H1) 2 eq_refl H2).
Defined.

End SnapshotMarshalling.

(** ** What a snapshot build does and returns *)

Module SnapshotBuild.
Import IsolateHandle.

Section Build.

Context {isolate : Type}.
Context (v8_Compile :
           scope -> string -> ScriptOriginHolder.ScriptOrigin -> isolate -> (Script + Value) * isolate).
Context (v8_Run : scope -> Script -> isolate -> option Value * isolate).
Context (GetUnboundScript : Script -> UnboundScript).
Context (BindToCurrentContext : UnboundScript -> scope -> Script).
Context (v8_CreateBlob : isolate -> list Byte.byte).
Context {copy : Type}.
Context (CopyIfPrimitiveOrError : Value -> option copy).
Context (CopyInto : copy -> Value).

Local Abbreviation CreateSnapshot :=
  (CreateSnapshot isolate v8_Compile v8_Run GetUnboundScript BindToCurrentContext
     v8_CreateBlob copy CopyIfPrimitiveOrError CopyInto).
Local Abbreviation spec_program :=
  (spec_program isolate v8_Compile v8_Run GetUnboundScript BindToCurrentContext).
Local Abbreviation spec_programs :=
  (spec_programs isolate v8_Compile v8_Run GetUnboundScript BindToCurrentContext).
Local Abbreviation spec_warmup := (spec_warmup isolate v8_Compile v8_Run).
Local Abbreviation spec_build :=
  (spec_build isolate v8_Compile v8_Run GetUnboundScript BindToCurrentContext).
Local Abbreviation thrown_by_engine := (thrown_by_engine v8_Compile v8_Run).

(** The calls of a build are compiles and runs, and what aborts it is
    what one of them threw. *)
Lemma spec_program_calls script iso :
  Forall (fun e => is_script_call e = true) (spec_program script iso).1.1 /\
  forall exception, (spec_program script iso).1.2 = Some exception -> thrown_by_engine exception.
Proof.
  unfold IsolateHandle.spec_program.
  destruct (v8_Compile context script.1 (ScriptOriginHolder.ToScriptOrigin script.2) iso)
    as [[compiled | exception] iso1] eqn:Hcompile.
  - destruct (v8_Run context compiled iso1) as [[exception |] iso2] eqn:Hrun.
    + cbn. split; [repeat constructor |]. intros e [= <-].
      right. exists context, compiled, iso1. rewrite Hrun. reflexivity.
    + destruct (v8_Run context_dirty
                  (BindToCurrentContext (GetUnboundScript compiled) context_dirty) iso2)
        as [thrown iso3] eqn:Hrerun.
      cbn. split; [repeat constructor |]. intros e ->.
      right. eexists context_dirty, _, iso2. rewrite Hrerun. reflexivity.
  - cbn. split; [repeat constructor |]. intros e [= <-].
    left. eexists context, _, _, iso. rewrite Hcompile. reflexivity.
Qed.

Lemma spec_programs_calls scripts : forall iso,
  Forall (fun e => is_script_call e = true) (spec_programs scripts iso).1.1 /\
  forall exception, (spec_programs scripts iso).1.2 = Some exception -> thrown_by_engine exception.
Proof.
  induction scripts as [| script rest IH]; intros iso; cbn [IsolateHandle.spec_programs].
  - cbn. split; [constructor | discriminate].
  - destruct (spec_program_calls script iso) as [Hcalls Hthrown].
    destruct (spec_program script iso) as [[calls [exception |]] iso1]; cbn [fst snd] in *.
    + split; [exact Hcalls | exact Hthrown].
    + destruct (IH iso1) as [Hmore Hlater].
      destruct (spec_programs rest iso1) as [[more thrown] iso2]; cbn [fst snd] in *.
      split; [apply Forall_app; split; assumption | exact Hlater].
Qed.

Lemma spec_warmup_calls warmup_script iso :
  Forall (fun e => is_script_call e = true) (spec_warmup warmup_script iso).1.1 /\
  forall exception,
    (spec_warmup warmup_script iso).1.2 = Some exception -> thrown_by_engine exception.
Proof.
  unfold IsolateHandle.spec_warmup. destruct (bool_decide _).
  - cbn. split; [constructor | discriminate].
  - destruct (v8_Compile context_dirty warmup_script
                (ScriptOriginHolder.ToScriptOrigin ScriptOriginHolder.initial) iso)
      as [[compiled | exception] iso1] eqn:Hcompile.
    + destruct (v8_Run context_dirty compiled iso1) as [thrown iso2] eqn:Hrun.
      cbn. split; [repeat constructor |]. intros e ->.
      right. exists context_dirty, compiled, iso1. rewrite Hrun. reflexivity.
    + cbn. split; [repeat constructor |]. intros e [= <-].
      left. eexists context_dirty, _, _, iso. rewrite Hcompile. reflexivity.
Qed.

Lemma spec_build_calls scripts warmup_script iso :
  Forall (fun e => is_script_call e = true) (spec_build scripts warmup_script iso).1.1 /\
  forall exception,
    (spec_build scripts warmup_script iso).1.2 = Some exception -> thrown_by_engine exception.
Proof.
  unfold IsolateHandle.spec_build.
  destruct (spec_programs_calls scripts iso) as [Hcalls Hthrown].
  destruct (spec_programs scripts iso) as [[calls [exception |]] iso1]; cbn [fst snd] in *.
  - split; [exact Hcalls | exact Hthrown].
  - destruct (spec_warmup_calls warmup_script iso1) as [Hmore Hlater].
    destruct (spec_warmup warmup_script iso1) as [[more thrown] iso2]; cbn [fst snd] in *.
    split; [apply Forall_app; split; assumption | exact Hlater].
Qed.

Lemma script_calls_without (calls : list event) (e : event) :
  Forall (fun e => is_script_call e = true) calls -> is_script_call e = false -> e ∉ calls.
Proof.
  intros Hcalls He Hin. rewrite Forall_forall in Hcalls.
  specialize (Hcalls e Hin). congruence.
Qed.

(** X24.  The five ways [CreateSnapshot] ends, whatever the engine does.
    Marshalling throws a type error, or it throws [js_runtime_error]
    because a read of the array failed, in both cases before any call is
    made; or the generic failure is thrown after a [CreateBlob] that came
    last and only once; or [ThrowException] is returned without any
    [CreateBlob]; or a handle on a buffer that is not empty is returned,
    after a [CreateBlob] that came last and only once.  An exception of a
    script is never thrown out of it. *)
Theorem CreateSnapshot_outcomes script_handles warmup_handle iso :
  let made := CreateSnapshot script_handles warmup_handle iso in
  (exists message, made = (Throw (js_type_error message), [])) \/
  (exists pending,
      marshal_scripts script_handles = Throw (js_runtime_error pending) /\
      made = (Throw (js_runtime_error pending), [])) \/
  (exists before,
      (CreateBlob ∉ before) /\
      made = (Throw (js_generic_error "Failure creating snapshot"), before ++ [CreateBlob])) \/
  (exists v, made.1 = Return (ThrowException v) /\ CreateBlob ∉ made.2) \/
  (exists snapshot before,
      snapshot <> [] /\ (CreateBlob ∉ before) /\
      made = (Return (SnapshotHandle snapshot), before ++ [CreateBlob])).
Proof.
  cbn zeta.
  destruct (SnapshotMarshalling.marshal_scripts_from_cases script_handles 0)
    as [(scripts & Hmarshal) | [(message & Hmarshal) | (pending & entry & Hmarshal & _)]].
  - rewrite (IsolateHandleFacts.CreateSnapshot_spec v8_Compile v8_Run GetUnboundScript
               BindToCurrentContext v8_CreateBlob CopyIfPrimitiveOrError CopyInto
               script_handles warmup_handle iso scripts Hmarshal).
    destruct (spec_build_calls scripts (marshal_warmup warmup_handle) iso) as [Hcalls _].
    destruct (spec_build scripts (marshal_warmup warmup_handle) iso) as [[calls thrown] iso1].
    cbn [fst snd] in Hcalls.
    assert (Hstart : CreateBlob ∉ [SetDefaultContext context] ++ calls).
    { rewrite elem_of_app. intros [H | H].
      - apply list_elem_of_singleton in H. discriminate H.
      - exact (script_calls_without calls CreateBlob Hcalls eq_refl H). }
    assert (Hfull : CreateBlob ∉ [SetDefaultContext context] ++ calls
                                 ++ [ContextDisposedNotification; AddContext context]).
    { rewrite app_assoc, elem_of_app. intros [H | H]; [exact (Hstart H) |].
      rewrite !elem_of_cons in H. destruct H as [H | [H | H]]; try discriminate H.
      apply elem_of_nil in H. exact H. }
    assert (Hexported :
              forall before,
                (CreateBlob ∉ before) ->
                let exported :=
                  if bool_decide (length (v8_CreateBlob iso1) = 0%nat)
                  then Throw (js_generic_error "Failure creating snapshot")
                  else Return (SnapshotHandle (v8_CreateBlob iso1)) in
                (exists before',
                    (CreateBlob ∉ before') /\
                    (exported, before ++ [CreateBlob])
                    = (Throw (js_generic_error "Failure creating snapshot"),
                       before' ++ [CreateBlob])) \/
                (exists snapshot before',
                    snapshot <> [] /\ (CreateBlob ∉ before') /\
                    (exported, before ++ [CreateBlob])
                    = (Return (SnapshotHandle snapshot), before' ++ [CreateBlob]))).
    { intros before Hbefore. cbn zeta. destruct (bool_decide _) eqn:E.
      - left. exists before. split; [exact Hbefore | reflexivity].
      - right. eexists _, before. split; [| split; [exact Hbefore | reflexivity]].
        apply bool_decide_eq_false_1 in E. intros Hnil. apply E. rewrite Hnil. reflexivity. }
    destruct thrown as [exception |]; [destruct (CopyIfPrimitiveOrError exception) as [e |] |].
    + right. right. right. left. exists (CopyInto e). split; [reflexivity | exact Hstart].
    + rewrite (app_assoc [SetDefaultContext context] calls [CreateBlob]).
      destruct (Hexported _ Hstart) as [H | H]; [right; right; left | do 4 right]; exact H.
    + replace ([SetDefaultContext context] ++ calls
               ++ [ContextDisposedNotification; AddContext context; CreateBlob])
        with (([SetDefaultContext context] ++ calls
               ++ [ContextDisposedNotification; AddContext context]) ++ [CreateBlob])
        by (rewrite <- !app_assoc; reflexivity).
      destruct (Hexported _ Hfull) as [H | H]; [right; right; left | do 4 right]; exact H.
  - left. exists message. unfold IsolateHandle.CreateSnapshot, marshal_scripts.
    rewrite Hmarshal. reflexivity.
  - right. left. exists pending. split; [exact Hmarshal |].
    unfold IsolateHandle.CreateSnapshot, marshal_scripts. rewrite Hmarshal. reflexivity.
Qed.

(** X25.  A [ThrowException] that [CreateSnapshot] returns carries the
    copy of a value that a compile or a run of the snapshot creator threw,
    brought into the caller's isolate; and the calls made are then
    [SetDefaultContext] followed by compiles and runs only: no context is
    added, no disposal is notified, no blob is made. *)
Theorem returned_exception_provenance script_handles warmup_handle iso v :
  let made := CreateSnapshot script_handles warmup_handle iso in
  made.1 = Return (ThrowException v) ->
  (exists exception e,
      thrown_by_engine exception /\
      CopyIfPrimitiveOrError exception = Some e /\
      v = CopyInto e) /\
  exists done,
    made.2 = SetDefaultContext context :: done /\
    Forall (fun e => is_script_call e = true) done.
Proof.
  cbn zeta.
  destruct (SnapshotMarshalling.marshal_scripts_from_cases script_handles 0)
    as [(scripts & Hmarshal) | [(message & Hmarshal) | (pending & entry & Hmarshal & _)]].
  - rewrite (IsolateHandleFacts.CreateSnapshot_spec v8_Compile v8_Run GetUnboundScript
               BindToCurrentContext v8_CreateBlob CopyIfPrimitiveOrError CopyInto
               script_handles warmup_handle iso scripts Hmarshal).
    destruct (spec_build_calls scripts (marshal_warmup warmup_handle) iso) as [Hcalls Hthrown].
    destruct (spec_build scripts (marshal_warmup warmup_handle) iso) as [[calls thrown] iso1].
    cbn [fst snd] in *.
    destruct thrown as [exception |];
      [destruct (CopyIfPrimitiveOrError exception) as [e |] eqn:Hcopy |].
    + cbn [fst snd]. intros [= <-]. split.
      * exists exception, e. split; [exact (Hthrown exception eq_refl) |].
        split; [exact Hcopy | reflexivity].
      * exists calls. split; [reflexivity | exact Hcalls].
    + destruct (bool_decide _); discriminate.
    + destruct (bool_decide _); discriminate.
  - unfold IsolateHandle.CreateSnapshot, marshal_scripts. rewrite Hmarshal. discriminate.
  - unfold IsolateHandle.CreateSnapshot, marshal_scripts. rewrite Hmarshal. discriminate.
Qed.

(** X26.  The default context is added to the snapshot only after every
    script and the warmup script ran without throwing: if [AddContext]
    is among the calls, no call of the specification's build threw, the
    calls are [SetDefaultContext], all the calls of that build,
    [ContextDisposedNotification], [AddContext] and, last, [CreateBlob],
    and the result is not a [ThrowException].  The warmup script is the
    supplied string up to its first NUL. *)
Theorem context_added_only_after_full_run script_handles warmup_handle iso scripts :
  let made := CreateSnapshot script_handles warmup_handle iso in
  let warmup_script :=
    match warmup_handle with Some warmup => c_str warmup | None => ""%string end in
  marshal_scripts script_handles = Return scripts ->
  AddContext context ∈ made.2 ->
  (spec_build scripts warmup_script iso).1.2 = None /\
  made.2 = [SetDefaultContext context] ++ (spec_build scripts warmup_script iso).1.1
           ++ [ContextDisposedNotification; AddContext context; CreateBlob] /\
  forall v, made.1 <> Return (ThrowException v).
Proof.
  cbn zeta. intros Hmarshal.
  change (match warmup_handle with Some warmup => c_str warmup | None => ""%string end)
    with (marshal_warmup warmup_handle).
  rewrite (IsolateHandleFacts.CreateSnapshot_spec v8_Compile v8_Run GetUnboundScript
             BindToCurrentContext v8_CreateBlob CopyIfPrimitiveOrError CopyInto
             script_handles warmup_handle iso scripts Hmarshal).
  destruct (spec_build_calls scripts (marshal_warmup warmup_handle) iso) as [Hcalls _].
  destruct (spec_build scripts (marshal_warmup warmup_handle) iso) as [[calls thrown] iso1].
  cbn [fst snd] in *.
  pose proof (script_calls_without calls (AddContext context) Hcalls eq_refl) as Hnot.
  destruct thrown as [exception |]; [destruct (CopyIfPrimitiveOrError exception) as [e |] |].
  - cbn [snd]. rewrite elem_of_app. intros [H | H]; [| destruct (Hnot H)].
    apply list_elem_of_singleton in H. discriminate H.
  - destruct (bool_decide _); cbn [snd]; rewrite !elem_of_app;
      (intros [H | [H | H]]; [| destruct (Hnot H) |]);
      apply list_elem_of_singleton in H; discriminate H.
  - intros _. split; [reflexivity |].
    destruct (bool_decide _); cbn [fst snd]; (split; [reflexivity | discriminate]).
Qed.

End Build.

Lemma returned_exception_provenance_witness :
  let v8_Compile := fun (_ : scope) (_ : string) (_ : ScriptOriginHolder.ScriptOrigin) (n : nat) =>
                      (inl (Pos.of_succ_nat n) : Script + Value, S n) in
  let v8_Run := fun (c : scope) (_ : Script) (n : nat) =>
                  (match c with
                   | context => None
                   | context_dirty => Some (String "boom")
                   end, n) in
  let unbound := fun s : Script => s in
  let bound := fun (u : UnboundScript) (_ : scope) => u in
  let blob := fun _ : nat => [Byte.x01; Byte.x02] in
  let script_handles :=
    [(array_index 0, Handle (ScriptObject {[ "code" := data_property (String "a = 1") ]}))] in
  let made := CreateSnapshot nat v8_Compile v8_Run unbound bound blob Value Some id
                script_handles None 0%nat in
  made.1 = Return (ThrowException (String "boom")) /\
  exists done,
    made.2 = SetDefaultContext context :: done /\
    Forall (fun e => is_script_call e = true) done.
Proof.
  intros v8_Compile v8_Run unbound bound blob script_handles made.
  assert (H : made.1 = Return (ThrowException (String "boom"))) by (vm_compute; reflexivity).
  split; [exact H |].
  exact (proj2 (returned_exception_provenance v8_Compile v8_Run unbound bound blob Some id
                  script_handles None 0%nat (String "boom") H)).
Defined.

Lemma context_added_only_after_full_run_witness :
  let v8_Compile := fun (_ : scope) (_ : string) (_ : ScriptOriginHolder.ScriptOrigin) (n : nat) =>
                      (inl (Pos.of_succ_nat n) : Script + Value, S n) in
  let v8_Run := fun (_ : scope) (_ : Script) (n : nat) => (None : option Value, n) in
  let unbound := fun s : Script => s in
  let bound := fun (u : UnboundScript) (_ : scope) => u in
  let blob := fun _ : nat => [Byte.x01; Byte.x02] in
  let script_handles :=
    [(array_index 0, Handle (ScriptObject {[ "code" := data_property (String "a = 1") ]}))] in
  let scripts := [("a = 1"%string, ScriptOriginHolder.initial)] in
  let made := CreateSnapshot nat v8_Compile v8_Run unbound bound blob Value Some id
                script_handles (Some (String.String Ascii.zero "a")) 0%nat in
  (marshal_scripts script_handles = Return scripts /\ AddContext context ∈ made.2) /\
  made.2 = [SetDefaultContext context;
            Compile context "a = 1" ("<isolated-vm>"%string, 0, 0);
            Run context 1%positive; Run context_dirty 1%positive;
            ContextDisposedNotification; AddContext context; CreateBlob] /\
  forall v, made.1 <> Return (ThrowException v).
Proof.
  intros v8_Compile v8_Run unbound bound blob script_handles scripts made.
  assert (Hmarshal : marshal_scripts script_handles = Return scripts)
    by (vm_compute; reflexivity).
  assert (Hadd : AddContext context ∈ made.2).
  { vm_compute. do 5 apply list_elem_of_further. apply list_elem_of_here. }
  split; [split; assumption |].
  exact (proj2 (context_added_only_after_full_run v8_Compile v8_Run unbound bound blob Some id
                  script_handles (Some (String.String Ascii.zero "a")) 0%nat scripts
                  Hmarshal Hadd)).
Defined.

End SnapshotBuild.

(** ** Heap statistics *)

Module HeapStatRunnerFacts.
Import HeapStatRunner.

(** X27.  The heap statistics of an isolate whose allocator is a
    [LimitedAllocator] in use: the object has the ten properties of the
    report and no other, the nine of the engine carry what the engine
    reported, and [externally_allocated_size] carries what
    [GetAllocatedSize] of that allocator returns, a byte count that covers
    the array buffer blocks that are live and stays within the memory
    limit.  Nothing of the runner's earlier state is reported. *)
Theorem heap_statistics_report (double_of_size_t : Z -> spec_float) L B a live reported r :
  is_size_t L ->
  LimitedAllocator.reachable L B a live ->
  let ret := Phase3 double_of_size_t (Phase2 reported a r) in
  ret !! "externally_allocated_size"
    = Some (Number (double_of_size_t (LimitedAllocator.GetAllocatedSize a))) /\
  LimitedAllocator.total_length live <= LimitedAllocator.GetAllocatedSize a <= L /\
  ret !! "total_heap_size" = Some (Number (double_of_size_t (total_heap_size reported))) /\
  ret !! "total_heap_size_executable"
    = Some (Number (double_of_size_t (total_heap_size_executable reported))) /\
  ret !! "total_physical_size" = Some (Number (double_of_size_t (total_physical_size reported))) /\
  ret !! "total_available_size" = Some (Number (double_of_size_t (total_available_size reported))) /\
  ret !! "used_heap_size" = Some (Number (double_of_size_t (used_heap_size reported))) /\
  ret !! "heap_size_limit" = Some (Number (double_of_size_t (heap_size_limit reported))) /\
  ret !! "malloced_memory" = Some (Number (double_of_size_t (malloced_memory reported))) /\
  ret !! "peak_malloced_memory" = Some (Number (double_of_size_t (peak_malloced_memory reported))) /\
  ret !! "does_zap_garbage" = Some (Number (double_of_size_t (does_zap_garbage reported))) /\
  size ret = 10%nat.
Proof.
  intros HL Hreach ret.
  destruct (LimitedAllocatorFacts.reachable_invariant L B a live HL Hreach)
    as (_ & _ & Hm & _ & Hsum).
  split; [subst ret; unfold Phase3; apply lookup_insert_eq |].
  split; [unfold LimitedAllocator.GetAllocatedSize; lia |].
  subst ret. unfold Phase3, Phase2. cbn [heap externally_allocated_size].
  repeat split; try (vm_compute; reflexivity).
Qed.

Lemma heap_statistics_report_witness :
  let L := 8 * 1024 * 1024 in
  let a := (LimitedAllocator.Allocate (5 * 1024 * 1024) (LimitedAllocator.address 1)
              (1024 * 1024) (LimitedAllocator.New L)).2 in
  let reported := Build_HeapStatistics 1 2 3 4 5 6 7 8 0 in
  let double_of_size_t :=
    fun n : Z => match n with Zpos p => S754_finite false p 0 | _ => S754_zero false end in
  let ret := Phase3 double_of_size_t (Phase2 reported a (Build_t reported 0)) in
  is_size_t L /\
  ret !! "externally_allocated_size" = Some (Number (S754_finite false 1048576 0)) /\
  LimitedAllocator.total_length [1024 * 1024] <= LimitedAllocator.GetAllocatedSize a <= L /\
  size ret = 10%nat.
Proof.
  intros L a reported double_of_size_t ret.
  assert (HL : is_size_t L) by (unfold is_size_t; rewrite SIZE_MODULUS_eq; subst L; lia).
  split; [exact HL |].
  destruct (heap_statistics_report double_of_size_t L (16 * 1024 * 1024) a
              [1024 * 1024] reported (Build_t reported 0) HL
              LimitedAllocatorUse.reachable_example) as (H1 & H2 & H3).
  split; [exact H1 |]. split; [exact H2 |].
  exact (proj2 (proj2 (proj2 (proj2 (proj2 (proj2 (proj2 (proj2 (proj2 H3))))))))).
Defined.

End HeapStatRunnerFacts.
